(** * Layered configuration of the watchman daemon (cfg.c)

    A shallow embedding of [cfg.c]: the two process-wide configuration
    layers, the precedence resolver [cfg_get_json], the typed accessors and
    the root-marker computation [cfg_compute_root_files], followed by the
    properties of the specification that concern them.

    JSON values are jansson [json_t *] pointers.  Because
    [prepend_watchmanconfig_to_array] mutates a stored array in place, the
    values live in an explicit heap of cells addressed by locations, and the
    layers hold locations, not trees.

    [cfg_load_global_config_file] (file and environment access) and
    [cfg_shutdown] (release of the two layers) are not part of the
    embedding. *)

From Stdlib Require Import ZArith Floats.PrimFloat.
From stdpp Require Import gmap strings list fin_maps.

Open Scope string_scope.

(** ** JSON cells and the heap *)

(** A location is an index in the heap; [json_t *] is [option loc], with
    [None] for the NULL pointer. *)
Abbreviation loc := nat.

(** One heap cell per [json_t].  Arrays and objects hold the locations of
    their children, so that two keys can share a child. [json_int_t] is a
    64-bit integer; no arithmetic is done on it here. *)
Inductive json_node : Type :=
| JNull
| JTrue
| JFalse
| JInteger (z : Z)
| JReal (d : float)
| JString (s : string)
| JArray (elems : list loc)
| JObject (fields : gmap string loc).

(** Process state: the heap and the two file-level statics of cfg.c.
    [cfg_lock] is not represented: the embedding is sequential. *)
Record cfg_state : Type := CfgState {
  heap : list json_node;
  global_cfg : option loc;
  arg_cfg : option loc
}.

(** [w_root_t], restricted to the one field cfg.c reads. *)
Record w_root_t : Type := WRoot { config_file : option loc }.

Definition deref (h : list json_node) (p : option loc) : option json_node :=
  match p with
  | Some l => h !! l
  | None => None
  end.

(** ** jansson primitives

    The structured value representation (jansson) is kept outside src/; the
    specification names its variants and treats it as an external
    collaborator.  The calls cfg.c makes are modelled on the heap: type
    tests are false on NULL, value getters give 0 or NULL on a cell of
    another type. *)

(** Modelled from the spec: jansson's [json_is_string], the String variant
    test of the value representation. *)
Definition json_is_string (h : list json_node) (p : option loc) : bool :=
  match deref h p with Some (JString _) => true | _ => false end.

(** Modelled from the spec: jansson's [json_is_integer], the Integer
    variant test. *)
Definition json_is_integer (h : list json_node) (p : option loc) : bool :=
  match deref h p with Some (JInteger _) => true | _ => false end.

(** Modelled from the spec: jansson's [json_is_real], the Double variant
    test. *)
Definition json_is_real (h : list json_node) (p : option loc) : bool :=
  match deref h p with Some (JReal _) => true | _ => false end.

(** Modelled from the spec: jansson's [json_is_number], true of both
    number variants. *)
Definition json_is_number (h : list json_node) (p : option loc) : bool :=
  json_is_integer h p || json_is_real h p.

(** Modelled from the spec: jansson's [json_is_true]. *)
Definition json_is_true (h : list json_node) (p : option loc) : bool :=
  match deref h p with Some JTrue => true | _ => false end.

(** Modelled from the spec: jansson's [json_is_false]. *)
Definition json_is_false (h : list json_node) (p : option loc) : bool :=
  match deref h p with Some JFalse => true | _ => false end.

(** Modelled from the spec: jansson's [json_is_boolean], the Bool variant
    test. *)
Definition json_is_boolean (h : list json_node) (p : option loc) : bool :=
  json_is_true h p || json_is_false h p.

(** Modelled from the spec: jansson's [json_is_array]. *)
Definition json_is_array (h : list json_node) (p : option loc) : bool :=
  match deref h p with Some (JArray _) => true | _ => false end.

(** Modelled from the spec: jansson's [json_is_object]. *)
Definition json_is_object (h : list json_node) (p : option loc) : bool :=
  match deref h p with Some (JObject _) => true | _ => false end.

(** Modelled from the spec: jansson's [json_string_value]; the result is a
    [const char *], [None] being NULL.  jansson strings are NUL-terminated
    C strings, so [strcmp] equality is equality of the contents. *)
Definition json_string_value (h : list json_node) (p : option loc)
  : option string :=
  match deref h p with Some (JString s) => Some s | _ => None end.

(** Modelled from the spec: jansson's [json_integer_value]; 0 on a cell
    that is not an integer. *)
Definition json_integer_value (h : list json_node) (p : option loc) : Z :=
  match deref h p with Some (JInteger z) => z | _ => 0%Z end.

(** Modelled from the spec: jansson's [json_real_value]; 0.0 on a cell
    that is not a real, an integer included. *)
Definition json_real_value (h : list json_node) (p : option loc) : float :=
  match deref h p with Some (JReal d) => d | _ => PrimFloat.zero end.

(** Modelled from the spec: jansson's [json_array_size]; 0 on a cell that
    is not an array. *)
Definition json_array_size (h : list json_node) (p : option loc) : nat :=
  match deref h p with Some (JArray elems) => length elems | _ => 0 end.

(** Modelled from the spec: jansson's [json_array_get]; NULL out of
    range. *)
Definition json_array_get (h : list json_node) (p : option loc) (i : nat)
  : option loc :=
  match deref h p with Some (JArray elems) => elems !! i | _ => None end.

(** Modelled from the spec: jansson's [json_object_get]; NULL when the
    object has no entry for the key, or when it is not an object. *)
Definition json_object_get (h : list json_node) (p : option loc)
    (name : string) : option loc :=
  match deref h p with Some (JObject fields) => fields !! name | _ => None end.

(** ** The monad of cfg.c

    A call either returns a value and a new state, or ends the process in
    [w_log(W_LOG_FATAL, ...)], or runs into undefined behaviour (a NULL
    handed to [strcmp]). *)
Inductive outcome (A : Type) : Type :=
| Ret (a : A) (s : cfg_state)
| Fatal (msg : string)
| Undefined.
Arguments Ret {A} a s.
Arguments Fatal {A} msg.
Arguments Undefined {A}.

Definition M (A : Type) : Type := cfg_state → outcome A.

Definition ret {A} (a : A) : M A := λ s, Ret a s.

Definition bind {A B} (m : M A) (k : A → M B) : M B :=
  λ s, match m s with
       | Ret a s' => k a s'
       | Fatal msg => Fatal msg
       | Undefined => Undefined
       end.

Notation "'let*' x := m 'in' k" := (bind m (λ x, k))
  (at level 10, x name, m at level 100, k at level 200,
   format "'[v' 'let*'  x  :=  m  'in' '/' k ']'").
Notation "'run' m 'in' k" := (bind m (λ _, k))
  (at level 10, m at level 100, k at level 200,
   format "'[v' 'run'  m  'in' '/' k ']'").

Definition get_heap : M (list json_node) := λ s, Ret (heap s) s.
Definition get_global_cfg : M (option loc) := λ s, Ret (global_cfg s) s.
Definition get_arg_cfg : M (option loc) := λ s, Ret (arg_cfg s) s.
Definition put_heap (h : list json_node) : M unit :=
  λ s, Ret tt (CfgState h (global_cfg s) (arg_cfg s)).
Definition put_global_cfg (p : option loc) : M unit :=
  λ s, Ret tt (CfgState (heap s) p (arg_cfg s)).
Definition put_arg_cfg (p : option loc) : M unit :=
  λ s, Ret tt (CfgState (heap s) (global_cfg s) p).
Definition undefined_behaviour {A} : M A := λ _, Undefined.

(** Lift a read-only jansson call to the monad. *)
Definition reading {A} (f : list json_node → A) : M A :=
  let* h := get_heap in ret (f h).

(** Modelled from the spec: jansson's allocation of a new value, as a
    fresh cell at the end of the heap; allocation failure is not
    modelled. *)
Definition json_alloc (n : json_node) : M (option loc) :=
  let* h := get_heap in
  run put_heap (h ++ [n]) in
  ret (Some (length h)).

(** Modelled from the spec: jansson's [json_string_nocheck]. *)
Definition json_string_nocheck (value : string) : M (option loc) :=
  json_alloc (JString value).

(** Modelled from the spec: jansson's [json_object()], a new empty
    object. *)
Definition json_object : M (option loc) := json_alloc (JObject ∅).

(** Modelled from the spec: jansson's [json_array()], a new empty array. *)
Definition json_array : M (option loc) := json_alloc (JArray []).

(** Modelled from the spec: jansson's [json_incref].  Reference counts are
    not tracked, ownership being outside the properties proved here, so
    the call leaves the state as it is. *)
Definition json_incref (p : option loc) : M unit := ret tt.

(** Modelled from the spec: jansson's [json_array_append_new], which
    writes to the array cell; 0 on success and -1 on failure. *)
Definition json_array_append_new (array value : option loc) : M Z :=
  let* h := get_heap in
  match value, array, deref h array with
  | Some v, Some a, Some (JArray elems) =>
      run put_heap (<[a := JArray (elems ++ [v])]> h) in ret 0%Z
  | _, _, _ => ret (-1)%Z
  end.

(** Modelled from the spec: jansson's [json_array_insert_new], which
    writes to the array cell and shifts the elements from [index] on. *)
Definition json_array_insert_new (array : option loc) (index : nat)
    (value : option loc) : M Z :=
  let* h := get_heap in
  match value, array, deref h array with
  | Some v, Some a, Some (JArray elems) =>
      if decide (index ≤ length elems)%nat then
        run put_heap (<[a := JArray (take index elems ++ v :: drop index elems)]> h) in
        ret 0%Z
      else ret (-1)%Z
  | _, _, _ => ret (-1)%Z
  end.

(** Modelled from the spec: jansson's [json_object_set_nocheck], which
    overwrites the entry of an existing key and adds one for a new key. *)
Definition json_object_set_nocheck (object : option loc) (key : string)
    (value : option loc) : M Z :=
  let* h := get_heap in
  match value, object, deref h object with
  | Some v, Some o, Some (JObject fields) =>
      if decide (o = v) then ret (-1)%Z
      else run put_heap (<[o := JObject (<[key := v]> fields)]> h) in ret 0%Z
  | _, _, _ => ret (-1)%Z
  end.

(** Modelled from the spec: the elements of [json_pack] at the formats
    [ssss] and [sss], a new string per argument appended to the array. *)
Fixpoint json_pack_strings_into (array : option loc) (args : list string)
  : M unit :=
  match args with
  | [] => ret tt
  | a :: rest =>
      let* v := json_string_nocheck a in
      run json_array_append_new array v in
      json_pack_strings_into array rest
  end.

(** Modelled from the spec: jansson's [json_pack] at the formats [ssss]
    and [sss], a new array of new strings. *)
Definition json_pack_array_of_strings (args : list string) : M (option loc) :=
  let* array := json_array in
  run json_pack_strings_into array args in
  ret array.

(** ** Logging *)

(** Modelled from the spec: the levels of watchman.h that cfg.c uses. *)
Inductive log_level : Type := W_LOG_ERR | W_LOG_DBG | W_LOG_FATAL.

(** Modelled from the spec: [w_log] (log.c) is not in src/.  Section 4.3 and
    section 7: a message at [W_LOG_FATAL] is an unrecoverable error that
    halts the calling path and does not return; whatever follows the call
    in the source is kept in the embedding but is not reached. *)
Definition w_log (level : log_level) (msg : string) : M unit :=
  match level with
  | W_LOG_FATAL => λ _, Fatal msg
  | _ => ret tt
  end.

(** ** cfg.c *)

Definition cfg_set_arg (name : string) (val : option loc) : M unit :=
  let* a := get_arg_cfg in
  run (if negb (bool_decide (is_Some a)) then
         let* o := json_object in put_arg_cfg o
       else ret tt) in
  let* a := get_arg_cfg in
  run json_object_set_nocheck a name val in
  ret tt.

Definition cfg_set_global (name : string) (val : option loc) : M unit :=
  let* g := get_global_cfg in
  run (if negb (bool_decide (is_Some g)) then
         let* o := json_object in put_global_cfg o
       else ret tt) in
  let* g := get_global_cfg in
  run json_object_set_nocheck g name val in
  ret tt.

(** [optr] is [&arg_cfg] or [&global_cfg]; it is passed as the action that
    reads the static. *)
Definition cfg_get_raw (name : string) (optr : M (option loc))
  : M (option loc) :=
  let* o := optr in
  if bool_decide (is_Some o) then reading (λ h, json_object_get h o name)
  else ret None.

Definition cfg_get_json (root : option w_root_t) (name : string)
  : M (option loc) :=
  (* Highest precedence: options set on the root *)
  let* val := match root with
              | Some r =>
                  if bool_decide (is_Some (config_file r)) then
                    reading (λ h, json_object_get h (config_file r) name)
                  else ret None
              | None => ret None
              end in
  (* then: command line arguments *)
  let* val := (if negb (bool_decide (is_Some val))
               then cfg_get_raw name get_arg_cfg else ret val) in
  (* then: global config options *)
  let* val := (if negb (bool_decide (is_Some val))
               then cfg_get_raw name get_global_cfg else ret val) in
  ret val.

(** The C library's [strcmp], up to the sign of the result. *)
Definition strcmp (a b : string) : Z :=
  match String.compare a b with
  | Eq => 0
  | Lt => -1
  | Gt => 1
  end%Z.

Definition nl : string := String (Ascii.ascii_of_nat 10) EmptyString.

(** The typed accessors.  [const char *] results and defaults are
    [option string], NULL being [None]. *)
Definition cfg_get_string (root : option w_root_t) (name : string)
    (defval : option string) : M (option string) :=
  let* val := cfg_get_json root name in
  if bool_decide (is_Some val) then
    let* is_string := reading (λ h, json_is_string h val) in
    run (if negb is_string then
           w_log W_LOG_FATAL
             ("Expected config value " +:+ name +:+ " to be a string" +:+ nl)
         else ret tt) in
    reading (λ h, json_string_value h val)
  else ret defval.

Definition cfg_get_int (root : option w_root_t) (name : string) (defval : Z)
  : M Z :=
  let* val := cfg_get_json root name in
  if bool_decide (is_Some val) then
    let* is_integer := reading (λ h, json_is_integer h val) in
    run (if negb is_integer then
           w_log W_LOG_FATAL
             ("Expected config value " +:+ name +:+ " to be an integer" +:+ nl)
         else ret tt) in
    reading (λ h, json_integer_value h val)
  else ret defval.

Definition cfg_get_bool (root : option w_root_t) (name : string)
    (defval : bool) : M bool :=
  let* val := cfg_get_json root name in
  if bool_decide (is_Some val) then
    let* is_boolean := reading (λ h, json_is_boolean h val) in
    run (if negb is_boolean then
           w_log W_LOG_FATAL
             ("Expected config value " +:+ name +:+ " to be a boolean" +:+ nl)
         else ret tt) in
    reading (λ h, json_is_true h val)
  else ret defval.

Definition cfg_get_double (root : option w_root_t) (name : string)
    (defval : float) : M float :=
  let* val := cfg_get_json root name in
  if bool_decide (is_Some val) then
    let* is_number := reading (λ h, json_is_number h val) in
    run (if negb is_number then
           w_log W_LOG_FATAL
             ("Expected config value " +:+ name +:+ " to be a number" +:+ nl)
         else ret tt) in
    reading (λ h, json_real_value h val)
  else ret defval.

Definition cfg_get_trouble_url : M (option string) :=
  cfg_get_string None "troubleshooting_url"
    (Some "https://facebook.github.io/watchman/docs/troubleshooting.html").

(** The loop of [is_array_of_strings], from index [i] with [todo] indices
    left below [json_array_size(ref)].  The C counter is a [uint32_t]; an
    array of 2^32 entries is not considered. *)
Fixpoint is_array_of_strings_from (h : list json_node) (ref : option loc)
    (i todo : nat) : bool :=
  match todo with
  | O => true
  | S todo' =>
      if negb (json_is_string h (json_array_get h ref i)) then false
      else is_array_of_strings_from h ref (S i) todo'
  end.

(** Return true if the json ref is an array of string values *)
Definition is_array_of_strings (h : list json_node) (ref : option loc) : bool :=
  if negb (json_is_array h ref) then false
  else is_array_of_strings_from h ref 0 (json_array_size h ref).

(** Given an array of string values, if that array does not start with a
    ".watchmanconfig" entry, prepend it *)
Definition prepend_watchmanconfig_to_array (ref : option loc) : M unit :=
  let* size := reading (λ h, json_array_size h ref) in
  if decide (size = 0) then
    (* json_array_insert_new at index can fail when the array is empty,
       so just append in this case. *)
    let* str := json_string_nocheck ".watchmanconfig" in
    run json_array_append_new ref str in
    ret tt
  else
    let* val := reading (λ h, json_string_value h (json_array_get h ref 0)) in
    match val with
    | None => undefined_behaviour
    | Some val =>
        if (strcmp val ".watchmanconfig" =? 0)%Z then ret tt
        else
          let* str := json_string_nocheck ".watchmanconfig" in
          run json_array_insert_new ref 0 str in
          ret tt
    end.

(** Compute the effective value of the root_files configuration.  The
    result pairs the returned reference with the value left in
    [*enforcing]. *)
Definition cfg_compute_root_files : M (option loc * bool) :=
  let* ignore_watchmanconfig :=
    cfg_get_bool None "_ignore_watchmanconfig" false in
  let enforcing := false in
  let* ref := cfg_get_json None "enforce_root_files" in
  let* enforcing :=
    (if bool_decide (is_Some ref) then
       let* is_boolean := reading (λ h, json_is_boolean h ref) in
       run (if negb is_boolean then
              w_log W_LOG_FATAL
                ("Expected config value enforce_root_files to be boolean" +:+ nl)
            else ret tt) in
       reading (λ h, json_is_true h ref)
     else ret enforcing) in
  let* ref := cfg_get_json None "root_files" in
  if bool_decide (is_Some ref) then
    let* ok := reading (λ h, is_array_of_strings h ref) in
    if negb ok then
      run w_log W_LOG_FATAL
            ("global config root_files must be an array of strings" +:+ nl) in
      ret (None, false)
    else
      run prepend_watchmanconfig_to_array ref in
      run json_incref ref in
      ret (ref, enforcing)
  else
  (* Try legacy root_restrict_files configuration *)
  let* ref := cfg_get_json None "root_restrict_files" in
  if bool_decide (is_Some ref) then
    let* ok := reading (λ h, is_array_of_strings h ref) in
    if negb ok then
      run w_log W_LOG_FATAL
            ("deprecated global config root_restrict_files "
             +:+ "must be an array of strings" +:+ nl) in
      ret (None, false)
    else
      run (if negb ignore_watchmanconfig
           then prepend_watchmanconfig_to_array ref else ret tt) in
      run json_incref ref in
      ret (ref, true)
  else
  (* Synthesize our conservative default value.
     .watchmanconfig MUST be first *)
  if negb ignore_watchmanconfig then
    let* ref := json_pack_array_of_strings
                  [".watchmanconfig"; ".hg"; ".git"; ".svn"] in
    ret (ref, enforcing)
  else
    let* ref := json_pack_array_of_strings [".hg"; ".git"; ".svn"] in
    ret (ref, enforcing).

(** ** Reading a result back *)

(** The strings of the array at [ref], in order; [None] when [ref] is not
    an array of strings. *)
Definition json_array_strings (h : list json_node) (ref : option loc)
  : option (list string) :=
  match deref h ref with
  | Some (JArray elems) =>
      mapM (λ e, json_string_value h (Some e)) elems
  | _ => None
  end.

(** What the prepend step leaves at the head of a list of markers. *)
Definition ensure_watchmanconfig_first (names : list string) : list string :=
  match names with
  | [] => [".watchmanconfig"]
  | first :: _ =>
      if String.eqb first ".watchmanconfig" then names
      else ".watchmanconfig" :: names
  end.

(** ** The resolver as the specification words it: first hit wins *)

Fixpoint first_hit (candidates : list (option loc)) : option loc :=
  match candidates with
  | [] => None
  | Some v :: _ => Some v
  | None :: rest => first_hit rest
  end.

(** The entry of [name] in the root view, when a root view is supplied. *)
Definition root_view_get (h : list json_node) (root : option w_root_t)
    (name : string) : option loc :=
  match root with
  | Some r => json_object_get h (config_file r) name
  | None => None
  end.

Definition resolve (s : cfg_state) (root : option w_root_t) (name : string)
  : option loc :=
  first_hit [root_view_get (heap s) root name;
             json_object_get (heap s) (arg_cfg s) name;
             json_object_get (heap s) (global_cfg s) name].

(** ** What the calls leave behind *)

(** The state once a new ".watchmanconfig" string has been allocated and
    put in front of the array stored at [ref]. *)
Definition prepended (s : cfg_state) (ref : loc) (elems : list loc)
  : cfg_state :=
  CfgState
    (<[ref := JArray (length (heap s) :: elems)]>
       (heap s ++ [JString ".watchmanconfig"])%list)
    (global_cfg s) (arg_cfg s).

(** The state [prepend_watchmanconfig_to_array] leaves. *)
Definition after_prepend (s : cfg_state) (ref : loc) : cfg_state :=
  match heap s !! ref with
  | Some (JArray elems) =>
      match json_string_value (heap s) (elems !! 0) with
      | Some first =>
          if String.eqb first ".watchmanconfig" then s
          else prepended s ref elems
      | None => prepended s ref elems
      end
  | _ => s
  end.

(** The markers synthesized when neither key is set. *)
Definition default_root_files (ignore_watchmanconfig : bool) : list string :=
  if negb ignore_watchmanconfig
  then [".watchmanconfig"; ".hg"; ".git"; ".svn"]
  else [".hg"; ".git"; ".svn"].

(** The markers of a returned specification: the strings of the returned
    array, read in the state the call leaves. *)
Definition returned_markers (o : outcome (option loc * bool))
  : option (list string) :=
  match o with
  | Ret (ref, _) s' => json_array_strings (heap s') ref
  | _ => None
  end.

(** jansson's [json_type] tag of a cell. *)
Inductive json_type : Type :=
| JSON_OBJECT | JSON_ARRAY | JSON_STRING | JSON_INTEGER | JSON_REAL
| JSON_TRUE | JSON_FALSE | JSON_NULL.

Definition json_typeof (n : json_node) : json_type :=
  match n with
  | JNull => JSON_NULL
  | JTrue => JSON_TRUE
  | JFalse => JSON_FALSE
  | JInteger _ => JSON_INTEGER
  | JReal _ => JSON_REAL
  | JString _ => JSON_STRING
  | JArray _ => JSON_ARRAY
  | JObject _ => JSON_OBJECT
  end.

(** The entry [cfg_compute_root_files] reads for the opt-out flag: no root
    is passed, so the argument layer comes first and the global layer
    second. *)
Definition ignore_watchmanconfig_entry (s : cfg_state) : option loc :=
  first_hit [json_object_get (heap s) (arg_cfg s) "_ignore_watchmanconfig";
             json_object_get (heap s) (global_cfg s) "_ignore_watchmanconfig"].

(** The boolean an entry stands for; an absent entry stands for false. *)
Definition entry_is (h : list json_node) (entry : option loc) (b : bool)
  : Prop :=
  match entry with
  | None => b = false
  | Some l => h !! l = Some (if b then JTrue else JFalse)
  end.

(** ** Sample configurations *)

(** No configuration at all. *)
Definition no_config : cfg_state := CfgState [] None None.

(** Global file: [root_files = ["foo", ".watchmanconfig"]], with
    [enforce_root_files] and the opt-out flag both true. *)
Definition root_files_config : cfg_state :=
  CfgState
    [JObject (list_to_map [("_ignore_watchmanconfig", 1);
                           ("enforce_root_files", 1);
                           ("root_files", 2)]);
     JTrue; JArray [3; 4]; JString "foo"; JString ".watchmanconfig"]
    (Some 0) None.

(** Global file: [root_restrict_files = ["bar"]], [enforce_root_files] false. *)
Definition legacy_config : cfg_state :=
  CfgState
    [JObject (list_to_map [("enforce_root_files", 1);
                           ("root_restrict_files", 2)]);
     JFalse; JArray [3]; JString "bar"]
    (Some 0) None.

(** Global layer holds [k = 1], argument layer [k = 2], the root view
    [k = null]. *)
Definition layered_config : cfg_state :=
  CfgState
    [JObject {[ "k" := 3 ]}; JObject {[ "k" := 4 ]}; JObject {[ "k" := 5 ]};
     JInteger 1; JInteger 2; JNull]
    (Some 0) (Some 1).

Definition layered_root : w_root_t := WRoot (Some 2).

(** Argument layer: [name = "watchman"], [count = 5], [ratio = 0.5]. *)
Definition typed_config : cfg_state :=
  CfgState
    [JObject (list_to_map [("name", 1); ("count", 2); ("ratio", 3)]);
     JString "watchman"; JInteger 5; JReal 0.5]
    None (Some 0).

(** One heap, the flag false in the global layer (cell 0) and true in an
    argument layer (cell 1) that only the second state installs. *)
Definition flag_heap : list json_node :=
  [JObject {[ "_ignore_watchmanconfig" := 2 ]};
   JObject {[ "_ignore_watchmanconfig" := 3 ]};
   JFalse; JTrue].

Definition flag_in_global_only : cfg_state := CfgState flag_heap (Some 0) None.

Definition flag_in_args_too : cfg_state :=
  CfgState flag_heap (Some 0) (Some 1).

(** The state a start-up sequence of calls leaves, from no configuration. *)
Definition configured (setup : M unit) : cfg_state :=
  match setup no_config with
  | Ret _ s => s
  | _ => no_config
  end.

(** [cfg_set_global("root_files", [])]. *)
Definition empty_root_files_config : cfg_state :=
  configured (let* a := json_array in cfg_set_global "root_files" a).

(** [cfg_set_global("root_files", ["not_a_string_array", 5])]. *)
Definition mixed_root_files_config : cfg_state :=
  configured
    (let* a := json_array in
     let* s := json_string_nocheck "not_a_string_array" in
     run json_array_append_new a s in
     let* i := json_alloc (JInteger 5) in
     run json_array_append_new a i in
     cfg_set_global "root_files" a).

(** [cfg_set_arg("_ignore_watchmanconfig", true)] and nothing else. *)
Definition opted_out_config : cfg_state :=
  configured
    (let* t := json_alloc JTrue in cfg_set_arg "_ignore_watchmanconfig" t).

(** ** Loading the global configuration file *)

(** What [access(path, R_OK)] answers: 0, or -1 with [errno] either
    [ENOENT] or another code. *)
Inductive access_result : Type :=
| ACCESS_OK
| ACCESS_ENOENT
| ACCESS_OTHER_ERRNO.

(** What [cfg_load_global_config_file] takes from outside the process
    state: the environment variables, the build-time macro
    [WATCHMAN_CONFIG_FILE] ([None] when it is not defined), the file system
    as [access] sees it, and jansson's [json_load_file], which allocates
    the parsed value on the heap and returns it, or returns NULL and an
    error text. *)
Record environment : Type := Environment {
  getenv : string → option string;
  WATCHMAN_CONFIG_FILE : option string;
  access_R_OK : string → access_result;
  json_load_file_on : string → list json_node
                      → (option loc * string) * list json_node
}.

Definition json_load_file (env : environment) (path : string)
  : M (option loc * string) :=
  let* h := get_heap in
  let loaded := json_load_file_on env path h in
  run put_heap (snd loaded) in
  ret (fst loaded).

Definition cfg_load_global_config_file (env : environment) : M unit :=
  let cfg_file := getenv env "WATCHMAN_CONFIG_FILE" in
  let cfg_file :=
    match WATCHMAN_CONFIG_FILE env with
    | Some default =>
        if negb (bool_decide (is_Some cfg_file)) then Some default
        else cfg_file
    | None => cfg_file
    end in
  match cfg_file with
  | None => ret tt
  | Some EmptyString => ret tt
  | Some path =>
      match access_R_OK env path with
      | ACCESS_ENOENT => ret tt
      | _ =>
          let* loaded := json_load_file env path in
          let config := fst loaded in
          let err_text := snd loaded in
          if negb (bool_decide (is_Some config)) then
            run w_log W_LOG_ERR
                  ("failed to parse json from " +:+ path +:+ ": "
                   +:+ err_text +:+ nl) in
            ret tt
          else put_global_cfg config
      end
  end.

(** ** Notions used to state what the setters do *)

(** The state with the two statics exchanged: [cfg_set_arg] is
    [cfg_set_global] read through it. *)
Definition swap_layers (s : cfg_state) : cfg_state :=
  CfgState (heap s) (arg_cfg s) (global_cfg s).

Definition outcome_map {A} (f : cfg_state → cfg_state) (o : outcome A)
  : outcome A :=
  match o with
  | Ret a s => Ret a (f s)
  | Fatal msg => Fatal msg
  | Undefined => Undefined
  end.

(** A layer takes the value at [v]: the value is an allocated cell, and the
    layer is either not created yet or an object other than the value
    itself. *)
Definition layer_accepts (h : list json_node) (layer : option loc) (v : loc)
  : Prop :=
  v < length h
  ∧ match layer with
    | None => True
    | Some o => o ≠ v ∧ ∃ fields, h !! o = Some (JObject fields)
    end.

(** ** More sample configurations *)

(** Global layer [{"k": 1}], no argument layer yet, and a string cell
    that is not bound to any key. *)
Definition one_key_config : cfg_state :=
  CfgState [JObject {[ "k" := 1 ]}; JInteger 1; JString "https://example.org/help"]
    (Some 0) None.

(** Both keys hold values of the wrong shape: [root_files] is
    [["x", 5]] and [root_restrict_files] is [["bar"]]. *)
Definition malformed_root_files_config : cfg_state :=
  CfgState
    [JObject (list_to_map [("root_files", 1); ("root_restrict_files", 4)]);
     JArray [2; 3]; JString "x"; JInteger 5; JArray [5]; JString "bar"]
    (Some 0) None.

(** [root_files = [".watchmanconfig", "foo"]] and
    [root_restrict_files = ["bar"]], both in the global layer. *)
Definition both_keys_config : cfg_state :=
  CfgState
    [JObject (list_to_map [("root_files", 1); ("root_restrict_files", 4)]);
     JArray [2; 3]; JString ".watchmanconfig"; JString "foo";
     JArray [5]; JString "bar"]
    (Some 0) None.

(** The global pointer is an array, as after loading a file whose top
    level is [[1]]. *)
Definition array_layer_config : cfg_state :=
  CfgState [JArray [1]; JInteger 1; JTrue] (Some 0) None.

(** A file system with one file, "/etc/watchman.json", which parses to
    [{"k": true}]; any other path does not exist. *)
Definition one_file_env (from_env : option string) (built_in : option string)
  : environment :=
  Environment
    (λ name, if String.eqb name "WATCHMAN_CONFIG_FILE" then from_env else None)
    built_in
    (λ path, if String.eqb path "/etc/watchman.json" then ACCESS_OK
             else ACCESS_ENOENT)
    (λ path h,
       if String.eqb path "/etc/watchman.json"
       then ((Some (length h), ""),
             (h ++ [JObject {[ "k" := S (length h) ]}; JTrue])%list)
       else ((None, "unable to open"), h)).

(** The same file system, with an unreadable "/etc/broken.json" that does
    not parse. *)
Definition broken_file_env : environment :=
  Environment
    (λ name, if String.eqb name "WATCHMAN_CONFIG_FILE"
             then Some "/etc/broken.json" else None)
    None
    (λ path, ACCESS_OTHER_ERRNO)
    (λ path h, ((None, "'[' or '{' expected near 'x'"), h)).

(** [root_files = ["foo"]] beside a [root_restrict_files] that is the
    number 5. *)
Definition shadowed_legacy_config : cfg_state :=
  CfgState
    [JObject (list_to_map [("root_files", 1); ("root_restrict_files", 3)]);
     JArray [2]; JString "foo"; JInteger 5]
    (Some 0) None.

(** [root_restrict_files = ["bar"]] beside an [enforce_root_files] that
    is the string "yes". *)
Definition malformed_enforce_config : cfg_state :=
  CfgState
    [JObject (list_to_map [("enforce_root_files", 1);
                           ("root_restrict_files", 2)]);
     JString "yes"; JArray [3]; JString "bar"]
    (Some 0) None.

Ltac evaluate := vm_compute; reflexivity.

(** ** Stepping through the monad *)

Lemma bind_Ret {A B} (m : M A) (k : A → M B) s a s' :
  m s = Ret a s' → (let* x := m in k x) s = k a s'.
Proof. intros Hm. unfold bind. by rewrite Hm. Qed.

Lemma bind_Fatal {A B} (m : M A) (k : A → M B) s msg :
  m s = Fatal msg → (let* x := m in k x) s = Fatal msg.
Proof. intros Hm. unfold bind. by rewrite Hm. Qed.

Lemma reading_run {A} (f : list json_node → A) s :
  reading f s = Ret (f (heap s)) s.
Proof. reflexivity. Qed.

Lemma json_object_get_NULL h name : json_object_get h None name = None.
Proof. reflexivity. Qed.

Lemma cfg_get_raw_arg name s :
  cfg_get_raw name get_arg_cfg s
  = Ret (json_object_get (heap s) (arg_cfg s) name) s.
Proof.
  unfold cfg_get_raw, bind, get_arg_cfg.
  destruct (arg_cfg s) as [a|]; reflexivity.
Qed.

Lemma cfg_get_raw_global name s :
  cfg_get_raw name get_global_cfg s
  = Ret (json_object_get (heap s) (global_cfg s) name) s.
Proof.
  unfold cfg_get_raw, bind, get_global_cfg.
  destruct (global_cfg s) as [g|]; reflexivity.
Qed.

Lemma cfg_get_json_run root name s :
  cfg_get_json root name s = Ret (resolve s root name) s.
Proof.
  unfold cfg_get_json, resolve.
  assert (Hroot :
    match root with
    | Some r =>
        if bool_decide (is_Some (config_file r)) then
          reading (λ h, json_object_get h (config_file r) name)
        else ret None
    | None => ret None
    end s = Ret (root_view_get (heap s) root name) s).
  { destruct root as [[[c|]]|]; reflexivity. }
  rewrite (bind_Ret _ _ _ _ _ Hroot).
  destruct (root_view_get (heap s) root name) as [v|]; simpl.
  - reflexivity.
  - unfold bind at 1. rewrite cfg_get_raw_arg.
    destruct (json_object_get (heap s) (arg_cfg s) name) as [v|]; simpl.
    + reflexivity.
    + unfold bind. rewrite cfg_get_raw_global.
      by destruct (json_object_get (heap s) (global_cfg s) name).
Qed.

(** ** The typed accessors, run on a state *)

Lemma cfg_get_string_run root name defval s :
  cfg_get_string root name defval s =
  match resolve s root name with
  | None => Ret defval s
  | Some l =>
      if json_is_string (heap s) (Some l)
      then Ret (json_string_value (heap s) (Some l)) s
      else Fatal ("Expected config value " +:+ name +:+ " to be a string" +:+ nl)
  end.
Proof.
  unfold cfg_get_string.
  rewrite (bind_Ret _ _ _ _ _ (cfg_get_json_run root name s)).
  destruct (resolve s root name) as [l|]; simpl; [|done].
  unfold bind; simpl. by destruct (json_is_string (heap s) (Some l)).
Qed.

Lemma cfg_get_int_run root name defval s :
  cfg_get_int root name defval s =
  match resolve s root name with
  | None => Ret defval s
  | Some l =>
      if json_is_integer (heap s) (Some l)
      then Ret (json_integer_value (heap s) (Some l)) s
      else Fatal ("Expected config value " +:+ name +:+ " to be an integer" +:+ nl)
  end.
Proof.
  unfold cfg_get_int.
  rewrite (bind_Ret _ _ _ _ _ (cfg_get_json_run root name s)).
  destruct (resolve s root name) as [l|]; simpl; [|done].
  unfold bind; simpl. by destruct (json_is_integer (heap s) (Some l)).
Qed.

Lemma cfg_get_bool_run root name defval s :
  cfg_get_bool root name defval s =
  match resolve s root name with
  | None => Ret defval s
  | Some l =>
      if json_is_boolean (heap s) (Some l)
      then Ret (json_is_true (heap s) (Some l)) s
      else Fatal ("Expected config value " +:+ name +:+ " to be a boolean" +:+ nl)
  end.
Proof.
  unfold cfg_get_bool.
  rewrite (bind_Ret _ _ _ _ _ (cfg_get_json_run root name s)).
  destruct (resolve s root name) as [l|]; simpl; [|done].
  unfold bind; simpl. by destruct (json_is_boolean (heap s) (Some l)).
Qed.

Lemma cfg_get_double_run root name defval s :
  cfg_get_double root name defval s =
  match resolve s root name with
  | None => Ret defval s
  | Some l =>
      if json_is_number (heap s) (Some l)
      then Ret (json_real_value (heap s) (Some l)) s
      else Fatal ("Expected config value " +:+ name +:+ " to be a number" +:+ nl)
  end.
Proof.
  unfold cfg_get_double.
  rewrite (bind_Ret _ _ _ _ _ (cfg_get_json_run root name s)).
  destruct (resolve s root name) as [l|]; simpl; [|done].
  unfold bind; simpl. by destruct (json_is_number (heap s) (Some l)).
Qed.

(** ** Arrays of strings *)

Lemma json_is_string_value h p :
  json_is_string h p = true ↔ is_Some (json_string_value h p).
Proof.
  unfold json_is_string, json_string_value.
  destruct (deref h p) as [[]|]; split; intros H;
    try done; try (by eexists); by destruct H.
Qed.

Lemma is_array_of_strings_from_Forall h ref elems todo : ∀ i,
  h !! ref = Some (JArray elems) →
  i + todo = length elems →
  is_array_of_strings_from h (Some ref) i todo = true
  ↔ Forall (λ e, is_Some (json_string_value h (Some e))) (drop i elems).
Proof.
  induction todo as [|todo IH]; intros i Href Hlen; simpl.
  - rewrite drop_ge by lia. split; [constructor | done].
  - assert (Hi : i < length elems) by lia.
    destruct (lookup_lt_is_Some_2 elems i Hi) as [e He].
    rewrite (drop_S elems e i He).
    unfold json_array_get at 1; simpl. rewrite Href, He.
    rewrite Forall_cons, <- json_is_string_value.
    destruct (json_is_string h (Some e)); simpl.
    + rewrite IH by (done || lia). tauto.
    + intuition discriminate.
Qed.

Lemma is_array_of_strings_iff h ref :
  is_array_of_strings h ref = true ↔ is_Some (json_array_strings h ref).
Proof.
  unfold is_array_of_strings, json_array_strings, json_is_array, json_array_size.
  destruct ref as [l|]; simpl; [|split; [done | by intros []]].
  destruct (h !! l) as [n|] eqn:Hl; simpl; [|split; [done | by intros []]].
  destruct n; simpl; try (split; [done | by intros []]).
  rewrite (is_array_of_strings_from_Forall h l elems (length elems) 0 Hl eq_refl).
  rewrite drop_0. symmetry. apply mapM_is_Some.
Qed.

Lemma json_array_strings_Some h ref names :
  json_array_strings h (Some ref) = Some names ↔
  ∃ elems, h !! ref = Some (JArray elems)
           ∧ Forall2 (λ e n, h !! e = Some (JString n)) elems names.
Proof.
  unfold json_array_strings; simpl. split.
  - destruct (h !! ref) as [[]|]; try done.
    intros Hm. eexists; split; [done|].
    apply mapM_Some in Hm. eapply Forall2_impl; [exact Hm|].
    intros e n. unfold json_string_value; simpl.
    destruct (h !! e) as [[]|]; naive_solver.
  - intros (elems & -> & HF). apply mapM_Some.
    eapply Forall2_impl; [exact HF|].
    intros e n He. unfold json_string_value; simpl. by rewrite He.
Qed.

(** ** The prepend step *)

Lemma strcmp_eqb a b : (strcmp a b =? 0)%Z = String.eqb a b.
Proof.
  unfold strcmp. destruct (String.compare a b) eqn:Hc; simpl.
  - apply String.compare_eq_iff in Hc. subst. by rewrite String.eqb_refl.
  - symmetry. apply String.eqb_neq. intros ->.
    pose proof (String.compare_antisym b b) as Ha. rewrite Hc in Ha. done.
  - symmetry. apply String.eqb_neq. intros ->.
    pose proof (String.compare_antisym b b) as Ha. rewrite Hc in Ha. done.
Qed.

Lemma prepended_lookup_ref s ref elems :
  ref < length (heap s) →
  heap (prepended s ref elems) !! ref
  = Some (JArray (length (heap s) :: elems)).
Proof.
  intros Hlt. simpl. apply list_lookup_insert_eq. rewrite length_app. lia.
Qed.

Lemma prepended_lookup_ne s ref elems l :
  l ≠ ref → l < length (heap s) →
  heap (prepended s ref elems) !! l = heap s !! l.
Proof.
  intros Hne Hlt. simpl.
  rewrite list_lookup_insert_ne by done. by apply lookup_app_l.
Qed.

Lemma prepended_lookup_new s ref elems :
  ref < length (heap s) →
  heap (prepended s ref elems) !! length (heap s)
  = Some (JString ".watchmanconfig").
Proof.
  intros Hlt. simpl. rewrite list_lookup_insert_ne by lia.
  rewrite lookup_app_r by lia. by rewrite Nat.sub_diag.
Qed.

Lemma prepended_lookup_beyond s ref elems l :
  length (heap s) < l → heap (prepended s ref elems) !! l = None.
Proof.
  intros Hlt. apply lookup_ge_None_2. simpl.
  rewrite length_insert, length_app. simpl. lia.
Qed.

Lemma prepend_watchmanconfig_to_array_run s ref names :
  json_array_strings (heap s) (Some ref) = Some names →
  prepend_watchmanconfig_to_array (Some ref) s = Ret tt (after_prepend s ref).
Proof.
  intros (elems & Href & HF)%json_array_strings_Some.
  assert (Hlt : ref < length (heap s)) by (by eapply lookup_lt_Some).
  unfold prepend_watchmanconfig_to_array, after_prepend.
  rewrite (bind_Ret _ _ _ _ _ (reading_run _ s)).
  unfold json_array_size; simpl. rewrite Href.
  destruct HF as [|e n rest names' He HF]; simpl.
  - unfold bind, json_string_nocheck, json_alloc, json_array_append_new,
      bind, get_heap, put_heap, ret; simpl.
    rewrite lookup_app_l by done. rewrite Href. reflexivity.
  - rewrite (bind_Ret _ _ _ _ _ (reading_run _ s)).
    unfold json_array_get, json_string_value; simpl. rewrite Href; simpl.
    rewrite He. rewrite strcmp_eqb.
    destruct (String.eqb n ".watchmanconfig"); [reflexivity|].
    unfold bind, json_string_nocheck, json_alloc, json_array_insert_new,
      bind, get_heap, put_heap, ret; simpl.
    rewrite lookup_app_l by done. rewrite Href. reflexivity.
Qed.

Lemma after_prepend_strings s ref names :
  json_array_strings (heap s) (Some ref) = Some names →
  json_array_strings (heap (after_prepend s ref)) (Some ref)
  = Some (ensure_watchmanconfig_first names).
Proof.
  intros Hnames.
  pose proof Hnames as (elems & Href & HF)%json_array_strings_Some.
  assert (Hlt : ref < length (heap s)) by (by eapply lookup_lt_Some).
  assert (Hpre : json_array_strings (heap (prepended s ref elems)) (Some ref)
                 = Some (".watchmanconfig" :: names)).
  { apply json_array_strings_Some. eexists; split.
    - by apply prepended_lookup_ref.
    - constructor; [by apply prepended_lookup_new|].
      eapply Forall2_impl; [exact HF|]. intros e n He. simpl in He.
      rewrite prepended_lookup_ne; [done | | by eapply lookup_lt_Some].
      intros ->. congruence. }
  unfold after_prepend, ensure_watchmanconfig_first. rewrite Href.
  destruct HF as [|e n rest names' He HF]; simpl; [done|].
  unfold json_string_value; simpl. rewrite He.
  by destruct (String.eqb n ".watchmanconfig").
Qed.

(** ** [json_pack] of an array of strings *)

Lemma json_pack_strings_into_run args : ∀ h0 done_locs done_nodes g a,
  json_pack_strings_into (Some (length h0)) args
    (CfgState (h0 ++ JArray done_locs :: done_nodes) g a)
  = Ret tt
      (CfgState
         (h0 ++ JArray (done_locs
                        ++ seq (length h0 + 1 + length done_nodes) (length args))
             :: done_nodes ++ map JString args) g a).
Proof.
  induction args as [|arg args IH]; intros h0 done_locs done_nodes g a; simpl.
  - by rewrite !app_nil_r.
  - unfold bind at 1.
    unfold json_string_nocheck, json_alloc, bind, get_heap, put_heap, ret; simpl.
    rewrite <- (assoc_L (++) h0 (JArray done_locs :: done_nodes) [JString arg]).
    unfold json_array_append_new, bind, get_heap, put_heap, ret; simpl.
    rewrite list_lookup_middle by done.
    rewrite insert_app_r_alt by done. rewrite Nat.sub_diag. simpl.
    rewrite IH. rewrite !length_app. simpl.
    rewrite <- (assoc_L (++) done_locs), <- (assoc_L (++) done_nodes). simpl.
    replace (length h0 + 1 + (length done_nodes + 1))
      with (S (length h0 + 1 + length done_nodes)) by lia.
    replace (length h0 + S (length done_nodes))
      with (length h0 + 1 + length done_nodes) by lia.
    reflexivity.
Qed.

Lemma json_pack_array_of_strings_run args s :
  json_pack_array_of_strings args s
  = Ret (Some (length (heap s)))
      (CfgState
         (heap s ++ JArray (seq (S (length (heap s))) (length args))
                 :: map JString args)
         (global_cfg s) (arg_cfg s)).
Proof.
  unfold json_pack_array_of_strings, json_array, json_alloc.
  unfold bind, get_heap, put_heap, ret; simpl.
  rewrite (json_pack_strings_into_run args (heap s) [] []). simpl.
  by replace (length (heap s) + 1 + 0) with (S (length (heap s))) by lia.
Qed.

Lemma json_array_strings_packed h args :
  json_array_strings
    (h ++ JArray (seq (S (length h)) (length args)) :: map JString args)
    (Some (length h))
  = Some args.
Proof.
  apply json_array_strings_Some. eexists. split.
  - by apply list_lookup_middle.
  - apply Forall2_same_length_lookup_2; [by rewrite length_seq|].
    intros i e n He Hn. apply lookup_seq in He as [-> Hi].
    rewrite lookup_app_r by lia.
    replace (S (length h) + i - length h) with (S i) by lia. simpl.
    by rewrite list_lookup_fmap, Hn.
Qed.

(** ** [cfg_compute_root_files], run on a state *)

(** A boolean read that returns leaves the state as it was. *)
Lemma cfg_get_bool_Ret root name defval s b s' :
  cfg_get_bool root name defval s = Ret b s' →
  s' = s ∧
  match resolve s root name with
  | None => b = defval
  | Some l =>
      json_is_boolean (heap s) (Some l) = true
      ∧ b = json_is_true (heap s) (Some l)
  end.
Proof.
  rewrite cfg_get_bool_run.
  destruct (resolve s root name) as [l|]; [|by intros [= -> ->]].
  destruct (json_is_boolean (heap s) (Some l)); [|done].
  by intros [= -> ->].
Qed.

Lemma cfg_compute_root_files_run s ignore enforcing :
  cfg_get_bool None "_ignore_watchmanconfig" false s = Ret ignore s →
  cfg_get_bool None "enforce_root_files" false s = Ret enforcing s →
  cfg_compute_root_files s =
  match resolve s None "root_files" with
  | Some ref =>
      if is_array_of_strings (heap s) (Some ref)
      then Ret (Some ref, enforcing) (after_prepend s ref)
      else Fatal ("global config root_files must be an array of strings" +:+ nl)
  | None =>
      match resolve s None "root_restrict_files" with
      | Some ref =>
          if is_array_of_strings (heap s) (Some ref)
          then Ret (Some ref, true) (if ignore then s else after_prepend s ref)
          else Fatal ("deprecated global config root_restrict_files "
                      +:+ "must be an array of strings" +:+ nl)
      | None =>
          (let* ref := json_pack_array_of_strings (default_root_files ignore) in
           ret (ref, enforcing)) s
      end
  end.
Proof.
  intros Hflag Henf. unfold cfg_compute_root_files.
  rewrite (bind_Ret _ _ _ _ _ Hflag). cbv zeta.
  rewrite (bind_Ret _ _ _ _ _ (cfg_get_json_run None _ s)).
  apply cfg_get_bool_Ret in Henf as [_ Henf].
  assert (Hblock :
    (if bool_decide (is_Some (resolve s None "enforce_root_files")) then
       let* is_boolean :=
         reading (λ h, json_is_boolean h (resolve s None "enforce_root_files")) in
       run (if negb is_boolean then
              w_log W_LOG_FATAL
                ("Expected config value enforce_root_files to be boolean" +:+ nl)
            else ret tt) in
       reading (λ h, json_is_true h (resolve s None "enforce_root_files"))
     else ret false) s = Ret enforcing s).
  { destruct (resolve s None "enforce_root_files") as [l|]; simpl.
    - destruct Henf as [Hb ->]. unfold bind; simpl. by rewrite Hb.
    - by rewrite Henf. }
  rewrite (bind_Ret _ _ _ _ _ Hblock).
  rewrite (bind_Ret _ _ _ _ _ (cfg_get_json_run None _ s)).
  destruct (resolve s None "root_files") as [ref|] eqn:Hrf; simpl.
  { rewrite (bind_Ret _ _ _ _ _ (reading_run _ s)).
    destruct (is_array_of_strings (heap s) (Some ref)) eqn:Harr; simpl; [|done].
    apply is_array_of_strings_iff in Harr as [names Hnames].
    by rewrite (bind_Ret _ _ _ _ _
                  (prepend_watchmanconfig_to_array_run s ref names Hnames)). }
  rewrite (bind_Ret _ _ _ _ _ (cfg_get_json_run None _ s)).
  destruct (resolve s None "root_restrict_files") as [ref|] eqn:Hrrf; simpl.
  { rewrite (bind_Ret _ _ _ _ _ (reading_run _ s)).
    destruct (is_array_of_strings (heap s) (Some ref)) eqn:Harr; simpl; [|done].
    apply is_array_of_strings_iff in Harr as [names Hnames].
    destruct ignore; simpl; [done|].
    by rewrite (bind_Ret _ _ _ _ _
                  (prepend_watchmanconfig_to_array_run s ref names Hnames)). }
  unfold default_root_files. by destruct ignore.
Qed.

(** Whenever the computation returns, both boolean reads had returned. *)
Lemma cfg_compute_root_files_Ret s r s' :
  cfg_compute_root_files s = Ret r s' →
  ∃ ignore enforcing,
    cfg_get_bool None "_ignore_watchmanconfig" false s = Ret ignore s
    ∧ cfg_get_bool None "enforce_root_files" false s = Ret enforcing s.
Proof.
  unfold cfg_compute_root_files. unfold bind at 1.
  destruct (cfg_get_bool None "_ignore_watchmanconfig" false s)
    as [ignore s0| |] eqn:Hflag; [|done..].
  destruct (cfg_get_bool_Ret _ _ _ _ _ _ Hflag) as [-> _].
  cbv zeta. rewrite (bind_Ret _ _ _ _ _ (cfg_get_json_run None _ s)).
  intros Hrest. exists ignore.
  rewrite (cfg_get_bool_run None "enforce_root_files").
  destruct (resolve s None "enforce_root_files") as [l|]; [|by eauto].
  destruct (json_is_boolean (heap s) (Some l)) eqn:Hb; [by eauto|].
  exfalso. revert Hrest. simpl. unfold bind; simpl. by rewrite Hb.
Qed.

Lemma cfg_get_json_Ret root name s r s' :
  cfg_get_json root name s = Ret r s' → s' = s ∧ resolve s root name = r.
Proof. rewrite cfg_get_json_run. by intros [= -> ->]. Qed.

Lemma ensure_watchmanconfig_first_head names :
  ∃ rest, ensure_watchmanconfig_first names = ".watchmanconfig" :: rest.
Proof.
  destruct names as [|n names]; simpl; [by eexists|].
  destruct (String.eqb n ".watchmanconfig") eqn:Heq; [|by eexists].
  apply String.eqb_eq in Heq as ->. by eexists.
Qed.

(** ** The frame of the prepend step *)

Section prepended_frame.
Variables (s : cfg_state) (ref : loc) (elems elems0 : list loc).
Hypothesis Href : heap s !! ref = Some (JArray elems0).

Lemma prepended_deref l :
  heap (prepended s ref elems) !! l = heap s !! l
  ∨ (l = ref ∧ heap (prepended s ref elems) !! l
                = Some (JArray (length (heap s) :: elems)))
  ∨ (heap s !! l = None
     ∧ heap (prepended s ref elems) !! l = Some (JString ".watchmanconfig")).
Proof using Href.
  assert (Hlt : ref < length (heap s)) by (by eapply lookup_lt_Some).
  destruct (decide (l = ref)) as [-> | Hne].
  { right; left. split; [done|]. by apply prepended_lookup_ref. }
  destruct (lt_eq_lt_dec l (length (heap s))) as [[Hl | ->] | Hl].
  - left. by apply prepended_lookup_ne.
  - right; right. split; [by apply lookup_ge_None_2|].
    by apply prepended_lookup_new.
  - left. rewrite prepended_lookup_beyond by done.
    symmetry. apply lookup_ge_None_2. lia.
Qed.

Lemma prepended_json_object_get p name :
  json_object_get (heap (prepended s ref elems)) p name
  = json_object_get (heap s) p name.
Proof using Href.
  destruct p as [l|]; [|done]. unfold json_object_get, deref.
  destruct (prepended_deref l) as [-> | [[-> ->] | [-> ->]]]; [done| |done].
  by rewrite Href.
Qed.

Lemma prepended_json_is_boolean p :
  json_is_boolean (heap (prepended s ref elems)) p
  = json_is_boolean (heap s) p.
Proof using Href.
  destruct p as [l|]; [|done].
  unfold json_is_boolean, json_is_true, json_is_false, deref.
  destruct (prepended_deref l) as [-> | [[-> ->] | [-> ->]]]; [done| |done].
  by rewrite Href.
Qed.

Lemma prepended_json_is_true p :
  json_is_true (heap (prepended s ref elems)) p = json_is_true (heap s) p.
Proof using Href.
  destruct p as [l|]; [|done]. unfold json_is_true, deref.
  destruct (prepended_deref l) as [-> | [[-> ->] | [-> ->]]]; [done| |done].
  by rewrite Href.
Qed.

Lemma prepended_resolve root name :
  resolve (prepended s ref elems) root name = resolve s root name.
Proof using Href.
  unfold resolve, root_view_get. destruct root as [r|];
    by rewrite !prepended_json_object_get.
Qed.

Lemma prepended_cfg_get_bool root name defval b :
  cfg_get_bool root name defval s = Ret b s →
  cfg_get_bool root name defval (prepended s ref elems)
  = Ret b (prepended s ref elems).
Proof using Href.
  rewrite !cfg_get_bool_run, prepended_resolve.
  destruct (resolve s root name) as [l|]; [|by intros [= ->]].
  rewrite prepended_json_is_boolean, prepended_json_is_true.
  destruct (json_is_boolean (heap s) (Some l)); [|done]. by intros [= ->].
Qed.
End prepended_frame.

(** ** The root-marker computation *)

(** C1. Whenever the opt-out flag [_ignore_watchmanconfig] reads false and
    [cfg_compute_root_files] returns, the returned reference is an array
    of strings whose first element is ".watchmanconfig", whichever of
    [root_files], [root_restrict_files] or the synthesized default it came
    from. *)
Theorem watchmanconfig_is_first s ref enforcing s' :
  cfg_get_bool None "_ignore_watchmanconfig" false s = Ret false s →
  cfg_compute_root_files s = Ret (ref, enforcing) s' →
  ∃ rest,
    json_array_strings (heap s') ref = Some (".watchmanconfig" :: rest).
Proof.
  intros Hflag Hrun.
  destruct (cfg_compute_root_files_Ret _ _ _ Hrun) as (ignore & e & Hflag' & Henf).
  rewrite Hflag in Hflag'. injection Hflag' as <-.
  rewrite (cfg_compute_root_files_run s false e Hflag Henf) in Hrun.
  destruct (resolve s None "root_files") as [rf|].
  { destruct (is_array_of_strings (heap s) (Some rf)) eqn:Harr; [|done].
    apply is_array_of_strings_iff in Harr as [names Hnames].
    injection Hrun as <- <- <-.
    rewrite (after_prepend_strings s rf names Hnames).
    destruct (ensure_watchmanconfig_first_head names) as [rest ->]. by eexists. }
  destruct (resolve s None "root_restrict_files") as [rrf|].
  { destruct (is_array_of_strings (heap s) (Some rrf)) eqn:Harr; [|done].
    apply is_array_of_strings_iff in Harr as [names Hnames].
    injection Hrun as <- <- <-.
    rewrite (after_prepend_strings s rrf names Hnames).
    destruct (ensure_watchmanconfig_first_head names) as [rest ->]. by eexists. }
  rewrite (bind_Ret _ _ _ _ _ (json_pack_array_of_strings_run _ s)) in Hrun.
  injection Hrun as <- <- <-. eexists.
  exact (json_array_strings_packed (heap s) (default_root_files false)).
Qed.

Lemma watchmanconfig_is_first_witness :
  cfg_get_bool None "_ignore_watchmanconfig" false legacy_config
  = Ret false legacy_config
  ∧ ∃ rest,
      returned_markers (cfg_compute_root_files legacy_config)
      = Some (".watchmanconfig" :: rest).
Proof.
  split; [evaluate|].
  apply (watchmanconfig_is_first legacy_config (Some 2) true
           (prepended legacy_config 2 [3])); evaluate.
Defined.

(** C3. When [root_files] resolves to an array of strings, the call returns
    that very array, now led by ".watchmanconfig": the string is put in
    front unless the element at index 0 already equals it (no other index
    is looked at), an empty array becomes the singleton, the opt-out flag
    plays no part, and [enforcing] is what [enforce_root_files] reads
    (false when the key is absent). *)
Theorem root_files_gets_watchmanconfig s ignore enforcing ref names :
  cfg_get_bool None "_ignore_watchmanconfig" false s = Ret ignore s →
  cfg_get_bool None "enforce_root_files" false s = Ret enforcing s →
  cfg_get_json None "root_files" s = Ret (Some ref) s →
  json_array_strings (heap s) (Some ref) = Some names →
  ∃ s',
    cfg_compute_root_files s = Ret (Some ref, enforcing) s'
    ∧ json_array_strings (heap s') (Some ref)
      = Some (match names with
              | [] => [".watchmanconfig"]
              | first :: _ =>
                  if String.eqb first ".watchmanconfig" then names
                  else ".watchmanconfig" :: names
              end)
    ∧ (cfg_get_json None "enforce_root_files" s = Ret None s →
       enforcing = false).
Proof.
  intros Hflag Henf [_ Hrf]%cfg_get_json_Ret Hnames.
  exists (after_prepend s ref). split_and!.
  - rewrite (cfg_compute_root_files_run s ignore enforcing Hflag Henf), Hrf.
    by rewrite (proj2 (is_array_of_strings_iff _ _) (mk_is_Some _ _ Hnames)).
  - apply (after_prepend_strings s ref names Hnames).
  - intros [_ Hnone]%cfg_get_json_Ret.
    apply cfg_get_bool_Ret in Henf as [_ Henf]. by rewrite Hnone in Henf.
Qed.

Lemma root_files_gets_watchmanconfig_witness :
  ∃ s',
    cfg_compute_root_files root_files_config = Ret (Some 2, true) s'
    ∧ json_array_strings (heap s') (Some 2)
      = Some [".watchmanconfig"; "foo"; ".watchmanconfig"]
    ∧ (cfg_get_json None "enforce_root_files" root_files_config
       = Ret None root_files_config → true = false).
Proof.
  apply (root_files_gets_watchmanconfig root_files_config true true 2
           ["foo"; ".watchmanconfig"]); evaluate.
Defined.

(** C4. When [root_files] does not resolve and the deprecated
    [root_restrict_files] resolves to an array of strings, the call returns
    that array, with the prepend step applied exactly when the opt-out flag
    is false, and [enforcing] is true whatever [enforce_root_files] holds. *)
Theorem root_restrict_files_forces_enforcing s ignore enforcing ref names :
  cfg_get_bool None "_ignore_watchmanconfig" false s = Ret ignore s →
  cfg_get_bool None "enforce_root_files" false s = Ret enforcing s →
  cfg_get_json None "root_files" s = Ret None s →
  cfg_get_json None "root_restrict_files" s = Ret (Some ref) s →
  json_array_strings (heap s) (Some ref) = Some names →
  ∃ s',
    cfg_compute_root_files s = Ret (Some ref, true) s'
    ∧ json_array_strings (heap s') (Some ref)
      = Some (if ignore then names else ensure_watchmanconfig_first names).
Proof.
  intros Hflag Henf [_ Hrf]%cfg_get_json_Ret [_ Hrrf]%cfg_get_json_Ret Hnames.
  exists (if ignore then s else after_prepend s ref). split.
  - rewrite (cfg_compute_root_files_run s ignore enforcing Hflag Henf), Hrf, Hrrf.
    by rewrite (proj2 (is_array_of_strings_iff _ _) (mk_is_Some _ _ Hnames)).
  - destruct ignore; [done|]. apply (after_prepend_strings s ref names Hnames).
Qed.

Lemma root_restrict_files_forces_enforcing_witness :
  ∃ s',
    cfg_compute_root_files legacy_config = Ret (Some 2, true) s'
    ∧ json_array_strings (heap s') (Some 2) = Some [".watchmanconfig"; "bar"].
Proof.
  apply (root_restrict_files_forces_enforcing legacy_config false false 2 ["bar"]);
    evaluate.
Defined.

(** C5. When neither [root_files] nor [root_restrict_files] resolves, the
    call returns a new array holding exactly ".watchmanconfig", ".hg",
    ".git", ".svn" if the opt-out flag is false and exactly ".hg", ".git",
    ".svn" if it is true; [enforcing] is what [enforce_root_files] reads
    (false when the key is absent). *)
Theorem default_root_files_synthesized s ignore enforcing :
  cfg_get_bool None "_ignore_watchmanconfig" false s = Ret ignore s →
  cfg_get_bool None "enforce_root_files" false s = Ret enforcing s →
  cfg_get_json None "root_files" s = Ret None s →
  cfg_get_json None "root_restrict_files" s = Ret None s →
  ∃ ref s',
    cfg_compute_root_files s = Ret (Some ref, enforcing) s'
    ∧ json_array_strings (heap s') (Some ref)
      = Some (if ignore then [".hg"; ".git"; ".svn"]
              else [".watchmanconfig"; ".hg"; ".git"; ".svn"])
    ∧ (cfg_get_json None "enforce_root_files" s = Ret None s →
       enforcing = false).
Proof.
  intros Hflag Henf [_ Hrf]%cfg_get_json_Ret [_ Hrrf]%cfg_get_json_Ret.
  eexists _, _. split_and!.
  - rewrite (cfg_compute_root_files_run s ignore enforcing Hflag Henf), Hrf, Hrrf.
    by rewrite (bind_Ret _ _ _ _ _ (json_pack_array_of_strings_run _ s)).
  - destruct ignore.
    + exact (json_array_strings_packed (heap s) (default_root_files true)).
    + exact (json_array_strings_packed (heap s) (default_root_files false)).
  - intros [_ Hnone]%cfg_get_json_Ret.
    apply cfg_get_bool_Ret in Henf as [_ Henf]. by rewrite Hnone in Henf.
Qed.

Lemma default_root_files_synthesized_witness :
  ∃ ref s',
    cfg_compute_root_files no_config = Ret (Some ref, false) s'
    ∧ json_array_strings (heap s') (Some ref)
      = Some [".watchmanconfig"; ".hg"; ".git"; ".svn"]
    ∧ (cfg_get_json None "enforce_root_files" no_config = Ret None no_config →
       false = false).
Proof.
  apply (default_root_files_synthesized no_config false false); evaluate.
Defined.

(** ** The precedence resolver *)

(** A view contains a key exactly when it is an object cell with an entry
    for it. *)
Lemma json_object_get_Some h p name v :
  json_object_get h p name = Some v ↔
  ∃ l fields, p = Some l ∧ h !! l = Some (JObject fields)
              ∧ fields !! name = Some v.
Proof.
  unfold json_object_get, deref. split.
  - destruct p as [l|]; [|done].
    destruct (h !! l) as [n|] eqn:Hl; [|done]. destruct n; try done.
    intros Hv. by exists l, fields.
  - by intros (l & fields & -> & -> & Hv).
Qed.

(** C2. [cfg_get_json] returns the root view's entry when a root view is
    supplied and contains the key; otherwise the argument layer's entry if
    it has one; otherwise the global layer's entry if it has one; otherwise
    NULL.  The state is left as it was. *)
Theorem cfg_get_json_precedence root name s :
  cfg_get_json root name s =
  Ret match root_view_get (heap s) root name with
      | Some in_root => Some in_root
      | None =>
          match json_object_get (heap s) (arg_cfg s) name with
          | Some in_args => Some in_args
          | None =>
              match json_object_get (heap s) (global_cfg s) name with
              | Some in_global => Some in_global
              | None => None
              end
          end
      end s.
Proof.
  rewrite cfg_get_json_run. unfold resolve, first_hit.
  destruct (root_view_get (heap s) root name); [done|].
  destruct (json_object_get (heap s) (arg_cfg s) name); [done|].
  by destruct (json_object_get (heap s) (global_cfg s) name).
Qed.

(** C9. A key with no entry in the root view, the argument layer or the
    global layer resolves to NULL.  A key whose highest-precedence entry is
    a Null cell resolves to that cell: the result is not NULL, and the
    layers below are not consulted. *)
Theorem absent_is_not_null root name s :
  (root_view_get (heap s) root name = None →
   json_object_get (heap s) (arg_cfg s) name = None →
   json_object_get (heap s) (global_cfg s) name = None →
   cfg_get_json root name s = Ret None s)
  ∧ (∀ l,
       heap s !! l = Some JNull →
       root_view_get (heap s) root name = Some l
       ∨ (root_view_get (heap s) root name = None
          ∧ json_object_get (heap s) (arg_cfg s) name = Some l)
       ∨ (root_view_get (heap s) root name = None
          ∧ json_object_get (heap s) (arg_cfg s) name = None
          ∧ json_object_get (heap s) (global_cfg s) name = Some l) →
       cfg_get_json root name s = Ret (Some l) s
       ∧ cfg_get_json root name s ≠ Ret None s).
Proof.
  rewrite cfg_get_json_run. unfold resolve, first_hit. split.
  - by intros -> -> ->.
  - intros l _ [-> | [[-> ->] | (-> & -> & ->)]]; by split.
Qed.

Lemma absent_is_not_null_witness :
  cfg_get_json (Some layered_root) "missing" layered_config
  = Ret None layered_config
  ∧ cfg_get_json (Some layered_root) "k" layered_config
    = Ret (Some 5) layered_config
  ∧ cfg_get_json (Some layered_root) "k" layered_config
    ≠ Ret None layered_config.
Proof.
  split.
  - apply (proj1 (absent_is_not_null (Some layered_root) "missing"
                    layered_config)); evaluate.
  - apply (proj2 (absent_is_not_null (Some layered_root) "k" layered_config) 5);
      [evaluate | left; evaluate].
Defined.

(** ** The typed accessors *)

(** C6, as the code has it.  On a key that resolves to a string,
    [cfg_get_int] ends in the fatal error and returns nothing, the default
    included.  More generally an accessor ends in the fatal error, naming
    the key and the expected type, whenever the resolved cell fails the
    accessor's own test: any cell but a string for [cfg_get_string], any
    but an integer for [cfg_get_int], any but true or false for
    [cfg_get_bool], and any but an integer or a real for
    [cfg_get_double]. *)
Theorem wrong_type_is_fatal root name s l n :
  cfg_get_json root name s = Ret (Some l) s →
  heap s !! l = Some n →
  (json_typeof n = JSON_STRING →
   ∀ defval,
     cfg_get_int root name defval s
     = Fatal ("Expected config value " +:+ name +:+ " to be an integer" +:+ nl)
     ∧ ∀ s', cfg_get_int root name defval s ≠ Ret defval s')
  ∧ (json_typeof n ≠ JSON_STRING →
     ∀ defval,
       cfg_get_string root name defval s
       = Fatal ("Expected config value " +:+ name +:+ " to be a string" +:+ nl))
  ∧ (json_typeof n ≠ JSON_INTEGER →
     ∀ defval,
       cfg_get_int root name defval s
       = Fatal ("Expected config value " +:+ name +:+ " to be an integer" +:+ nl))
  ∧ (json_typeof n ≠ JSON_TRUE → json_typeof n ≠ JSON_FALSE →
     ∀ defval,
       cfg_get_bool root name defval s
       = Fatal ("Expected config value " +:+ name +:+ " to be a boolean" +:+ nl))
  ∧ (json_typeof n ≠ JSON_INTEGER → json_typeof n ≠ JSON_REAL →
     ∀ defval,
       cfg_get_double root name defval s
       = Fatal ("Expected config value " +:+ name +:+ " to be a number" +:+ nl)).
Proof.
  intros [_ Hres]%cfg_get_json_Ret Hl.
  assert (Hint : json_typeof n ≠ JSON_INTEGER →
    ∀ defval,
      cfg_get_int root name defval s
      = Fatal ("Expected config value " +:+ name +:+ " to be an integer" +:+ nl)).
  { intros Hty defval. rewrite cfg_get_int_run, Hres.
    unfold json_is_integer, deref. rewrite Hl. by destruct n. }
  split_and!.
  - intros Hty defval.
    assert (Hne : json_typeof n ≠ JSON_INTEGER) by (by rewrite Hty).
    split; [by apply Hint|]. intros s'. by rewrite (Hint Hne).
  - intros Hty defval. rewrite cfg_get_string_run, Hres.
    unfold json_is_string, deref. rewrite Hl. by destruct n.
  - exact Hint.
  - intros Ht Hf defval. rewrite cfg_get_bool_run, Hres.
    unfold json_is_boolean, json_is_true, json_is_false, deref. rewrite Hl.
    by destruct n.
  - intros Hi Hr defval. rewrite cfg_get_double_run, Hres.
    unfold json_is_number, json_is_integer, json_is_real, deref. rewrite Hl.
    by destruct n.
Qed.

Lemma wrong_type_is_fatal_witness :
  cfg_get_int None "name" 42 typed_config
  = Fatal ("Expected config value name to be an integer" +:+ nl)
  ∧ ∀ s', cfg_get_int None "name" 42 typed_config ≠ Ret 42%Z s'.
Proof.
  refine (proj1 (wrong_type_is_fatal None "name" typed_config 1
                   (JString "watchman") _ _) _ 42%Z); evaluate.
Defined.

(** The second half of C6 as the specification words it fails: an integer
    cell is a mismatched variant for the double accessor, yet
    [cfg_get_double] returns on it. *)
Lemma wrong_type_is_fatal_counterexample :
  cfg_get_json None "count" typed_config = Ret (Some 2) typed_config
  ∧ heap typed_config !! 2 = Some (JInteger 5)
  ∧ json_typeof (JInteger 5) ≠ JSON_REAL
  ∧ cfg_get_double None "count" 1.5 typed_config = Ret 0%float typed_config
  ∧ ¬ ∃ msg, cfg_get_double None "count" 1.5 typed_config = Fatal msg.
Proof.
  split_and!; [evaluate | evaluate | done | evaluate |].
  intros [msg Hmsg]. vm_compute in Hmsg. discriminate Hmsg.
Qed.

(** C7, as the specification words it, fails: it is not so that
    [cfg_get_double] ends in the fatal error on every integer cell. *)
Lemma double_accessor_exact_counterexample :
  ¬ ∀ root name s l z defval,
      cfg_get_json root name s = Ret (Some l) s →
      heap s !! l = Some (JInteger z) →
      ∃ msg, cfg_get_double root name defval s = Fatal msg.
Proof.
  intros Hall.
  destruct (Hall None "count" typed_config 2 5%Z PrimFloat.one) as [msg Hmsg];
    [evaluate | evaluate |].
  vm_compute in Hmsg. discriminate Hmsg.
Qed.

(** C7, as the code has it.  [cfg_get_string], [cfg_get_int] and
    [cfg_get_bool] match the variant of the resolved cell exactly: each
    returns the content of a cell of its own variant and ends in the fatal
    type error on a cell of any other variant; in particular
    [cfg_get_int] ends in it on a real.  [cfg_get_double] tests
    [json_is_number]: it returns the content of a real, ends in the fatal
    error on a cell that is neither a real nor an integer, and on an
    integer it returns as well, without a fatal error. *)
Theorem typed_accessors_by_variant root name s l n :
  cfg_get_json root name s = Ret (Some l) s →
  heap s !! l = Some n →
  ((∀ v, n = JString v →
         ∀ defval, cfg_get_string root name defval s = Ret (Some v) s)
   ∧ (json_typeof n ≠ JSON_STRING →
      ∀ defval,
        cfg_get_string root name defval s
        = Fatal ("Expected config value " +:+ name
                 +:+ " to be a string" +:+ nl)))
  ∧ ((n = JTrue → ∀ defval, cfg_get_bool root name defval s = Ret true s)
     ∧ (n = JFalse → ∀ defval, cfg_get_bool root name defval s = Ret false s)
     ∧ (json_typeof n ≠ JSON_TRUE → json_typeof n ≠ JSON_FALSE →
        ∀ defval,
          cfg_get_bool root name defval s
          = Fatal ("Expected config value " +:+ name
                   +:+ " to be a boolean" +:+ nl)))
  ∧ ((∀ z, n = JInteger z →
           ∀ defval, cfg_get_int root name defval s = Ret z s)
     ∧ (json_typeof n ≠ JSON_INTEGER →
        ∀ defval,
          cfg_get_int root name defval s
          = Fatal ("Expected config value " +:+ name
                   +:+ " to be an integer" +:+ nl))
     ∧ (∀ d, n = JReal d →
             ∀ defval,
               cfg_get_int root name defval s
               = Fatal ("Expected config value " +:+ name
                        +:+ " to be an integer" +:+ nl)))
  ∧ ((∀ d, n = JReal d →
           ∀ defval, cfg_get_double root name defval s = Ret d s)
     ∧ (json_typeof n ≠ JSON_REAL → json_typeof n ≠ JSON_INTEGER →
        ∀ defval,
          cfg_get_double root name defval s
          = Fatal ("Expected config value " +:+ name
                   +:+ " to be a number" +:+ nl))
     ∧ (∀ z, n = JInteger z →
             ∀ defval, ∃ d, cfg_get_double root name defval s = Ret d s)).
Proof.
  intros [_ Hres]%cfg_get_json_Ret Hl.
  assert (Hint : json_typeof n ≠ JSON_INTEGER →
    ∀ defval,
      cfg_get_int root name defval s
      = Fatal ("Expected config value " +:+ name
               +:+ " to be an integer" +:+ nl)).
  { intros Hty defval. rewrite cfg_get_int_run, Hres.
    unfold json_is_integer, deref. rewrite Hl. by destruct n. }
  split_and!.
  - intros v -> defval. rewrite cfg_get_string_run, Hres.
    unfold json_is_string, json_string_value, deref. by rewrite Hl.
  - intros Hty defval. rewrite cfg_get_string_run, Hres.
    unfold json_is_string, deref. rewrite Hl. by destruct n.
  - intros -> defval. rewrite cfg_get_bool_run, Hres.
    unfold json_is_boolean, json_is_true, deref. by rewrite Hl.
  - intros -> defval. rewrite cfg_get_bool_run, Hres.
    unfold json_is_boolean, json_is_true, json_is_false, deref. by rewrite Hl.
  - intros Ht Hf defval. rewrite cfg_get_bool_run, Hres.
    unfold json_is_boolean, json_is_true, json_is_false, deref. rewrite Hl.
    by destruct n.
  - intros z -> defval. rewrite cfg_get_int_run, Hres.
    unfold json_is_integer, json_integer_value, deref. by rewrite Hl.
  - exact Hint.
  - intros d -> defval. by apply Hint.
  - intros d -> defval. rewrite cfg_get_double_run, Hres.
    unfold json_is_number, json_is_integer, json_is_real, json_real_value, deref.
    by rewrite Hl.
  - intros Hr Hi defval. rewrite cfg_get_double_run, Hres.
    unfold json_is_number, json_is_integer, json_is_real, deref. rewrite Hl.
    by destruct n.
  - intros z -> defval. eexists. rewrite cfg_get_double_run, Hres.
    unfold json_is_number, json_is_integer, deref. by rewrite Hl.
Qed.

Lemma typed_accessors_by_variant_witness :
  (∃ d, cfg_get_double None "count" 1.5 typed_config = Ret d typed_config)
  ∧ cfg_get_string None "count" None typed_config
    = Fatal ("Expected config value count to be a string" +:+ nl)
  ∧ cfg_get_bool None "count" false typed_config
    = Fatal ("Expected config value count to be a boolean" +:+ nl)
  ∧ cfg_get_int None "count" 0 typed_config = Ret 5%Z typed_config.
Proof.
  assert (Hfound : cfg_get_json None "count" typed_config
                   = Ret (Some 2) typed_config) by evaluate.
  assert (Hcell : heap typed_config !! 2 = Some (JInteger 5)) by evaluate.
  destruct (typed_accessors_by_variant None "count" typed_config 2
              (JInteger 5) Hfound Hcell)
    as ((_ & Hstring) & (_ & _ & Hbool) & (Hint & _ & _) & (_ & _ & Hdouble)).
  split_and!.
  - exact (Hdouble 5%Z eq_refl 1.5%float).
  - apply Hstring. done.
  - apply Hbool; done.
  - exact (Hint 5%Z eq_refl 0%Z).
Defined.

(** ** Where the opt-out flag is read *)

(** C8, as the specification words it, fails: two states whose global layer
    is the same object, holding the flag false, get different marker lists
    once the argument layer sets the flag. *)
Lemma ignore_flag_global_only_counterexample :
  heap flag_in_args_too = heap flag_in_global_only
  ∧ global_cfg flag_in_args_too = global_cfg flag_in_global_only
  ∧ json_is_false (heap flag_in_global_only)
      (json_object_get (heap flag_in_global_only)
         (global_cfg flag_in_global_only) "_ignore_watchmanconfig") = true
  ∧ returned_markers (cfg_compute_root_files flag_in_global_only)
    = Some [".watchmanconfig"; ".hg"; ".git"; ".svn"]
  ∧ returned_markers (cfg_compute_root_files flag_in_args_too)
    = Some [".hg"; ".git"; ".svn"].
Proof. split_and!; evaluate. Qed.

(** C8, as the code has it.  The flag is read with no root: its value is
    that of the argument layer's entry when there is one, else that of the
    global layer's entry, else false; a root view is never consulted, the
    call taking none.  The marker list follows that value: it decides the
    prepend on [root_restrict_files] and the head of the synthesized
    default. *)
Theorem ignore_flag_read_without_root s ignore enforcing :
  entry_is (heap s) (ignore_watchmanconfig_entry s) ignore →
  cfg_get_bool None "enforce_root_files" false s = Ret enforcing s →
  cfg_get_json None "root_files" s = Ret None s →
  cfg_get_bool None "_ignore_watchmanconfig" false s = Ret ignore s
  ∧ (cfg_get_json None "root_restrict_files" s = Ret None s →
     returned_markers (cfg_compute_root_files s)
     = Some (if ignore then [".hg"; ".git"; ".svn"]
             else [".watchmanconfig"; ".hg"; ".git"; ".svn"]))
  ∧ (∀ ref names,
       cfg_get_json None "root_restrict_files" s = Ret (Some ref) s →
       json_array_strings (heap s) (Some ref) = Some names →
       returned_markers (cfg_compute_root_files s)
       = Some (if ignore then names else ensure_watchmanconfig_first names)).
Proof.
  intros Hentry Henf [_ Hrf]%cfg_get_json_Ret.
  assert (Hflag :
    cfg_get_bool None "_ignore_watchmanconfig" false s = Ret ignore s).
  { rewrite cfg_get_bool_run. unfold resolve, root_view_get.
    unfold ignore_watchmanconfig_entry in Hentry. simpl first_hit in *.
    destruct (json_object_get (heap s) (arg_cfg s) "_ignore_watchmanconfig")
      as [l|].
    - unfold json_is_boolean, json_is_true, json_is_false, deref.
      simpl in Hentry. rewrite Hentry. by destruct ignore.
    - destruct (json_object_get (heap s) (global_cfg s)
                  "_ignore_watchmanconfig") as [l|]; simpl in Hentry.
      + unfold json_is_boolean, json_is_true, json_is_false, deref.
        rewrite Hentry. by destruct ignore.
      + by rewrite Hentry. }
  split_and!; [done| |].
  - intros [_ Hrrf]%cfg_get_json_Ret.
    rewrite (cfg_compute_root_files_run s ignore enforcing Hflag Henf), Hrf, Hrrf.
    rewrite (bind_Ret _ _ _ _ _ (json_pack_array_of_strings_run _ s)).
    destruct ignore.
    + exact (json_array_strings_packed (heap s) (default_root_files true)).
    + exact (json_array_strings_packed (heap s) (default_root_files false)).
  - intros ref names [_ Hrrf]%cfg_get_json_Ret Hnames.
    rewrite (cfg_compute_root_files_run s ignore enforcing Hflag Henf), Hrf, Hrrf.
    rewrite (proj2 (is_array_of_strings_iff _ _) (mk_is_Some _ _ Hnames)).
    destruct ignore; simpl; [done|].
    apply (after_prepend_strings s ref names Hnames).
Qed.

Lemma ignore_flag_read_without_root_witness :
  entry_is (heap flag_in_args_too)
    (ignore_watchmanconfig_entry flag_in_args_too) true
  ∧ cfg_get_bool None "_ignore_watchmanconfig" false flag_in_args_too
    = Ret true flag_in_args_too
  ∧ returned_markers (cfg_compute_root_files flag_in_args_too)
    = Some [".hg"; ".git"; ".svn"].
Proof.
  assert (Hentry : entry_is (heap flag_in_args_too)
                     (ignore_watchmanconfig_entry flag_in_args_too) true)
    by evaluate.
  split; [exact Hentry|].
  destruct (ignore_flag_read_without_root flag_in_args_too true false Hentry)
    as (Hflag & Hdefault & _); [evaluate | evaluate |].
  split; [exact Hflag|]. apply Hdefault. evaluate.
Defined.

(** ** The call writes to the stored array *)

Lemma after_prepend_led s ref rest :
  json_array_strings (heap s) (Some ref) = Some (".watchmanconfig" :: rest) →
  after_prepend s ref = s.
Proof.
  intros (elems & Href & HF)%json_array_strings_Some.
  apply Forall2_cons_inv_r in HF as (e & elems' & He & HF & ->).
  unfold after_prepend. rewrite Href.
  simpl. unfold json_string_value; simpl. by rewrite He.
Qed.

Lemma after_prepend_not_led s ref elems names :
  heap s !! ref = Some (JArray elems) →
  json_array_strings (heap s) (Some ref) = Some names →
  head names ≠ Some ".watchmanconfig" →
  after_prepend s ref = prepended s ref elems.
Proof.
  intros Href (elems' & Href' & HF)%json_array_strings_Some Hhead.
  assert (elems' = elems) as -> by congruence.
  unfold after_prepend. rewrite Href.
  destruct HF as [|e n elems' names' He HF]; simpl; [done|].
  unfold json_string_value; simpl. rewrite He.
  destruct (String.eqb n ".watchmanconfig") eqn:Heq; [|done].
  apply String.eqb_eq in Heq as ->. by destruct Hhead.
Qed.

(** C10. When [root_files] resolves to an array of strings that does not
    start with ".watchmanconfig" (or [root_restrict_files] does, with
    [root_files] unset and the opt-out flag false), the call writes to the
    stored array cell itself: the cell gets a newly allocated
    ".watchmanconfig" string in front, so the key now resolves to an array
    led by that string.  Nothing else is written: both layer pointers and
    every other cell of the heap are as before, so every key of every
    layer and root view resolves to the same cell as before.  A second
    call returns the same array and leaves the state as the first call
    left it. *)
Theorem prepend_is_written_in_place s ignore enforcing key ref names :
  cfg_get_bool None "_ignore_watchmanconfig" false s = Ret ignore s →
  cfg_get_bool None "enforce_root_files" false s = Ret enforcing s →
  key = "root_files"
  ∨ (key = "root_restrict_files" ∧ ignore = false
     ∧ cfg_get_json None "root_files" s = Ret None s) →
  cfg_get_json None key s = Ret (Some ref) s →
  json_array_strings (heap s) (Some ref) = Some names →
  head names ≠ Some ".watchmanconfig" →
  ∃ elems result s',
    heap s !! ref = Some (JArray elems)
    ∧ cfg_compute_root_files s = Ret (Some ref, result) s'
    ∧ heap s' !! ref = Some (JArray (length (heap s) :: elems))
    ∧ heap s' !! length (heap s) = Some (JString ".watchmanconfig")
    ∧ cfg_get_json None key s' = Ret (Some ref) s'
    ∧ json_array_strings (heap s') (Some ref)
      = Some (".watchmanconfig" :: names)
    ∧ global_cfg s' = global_cfg s
    ∧ arg_cfg s' = arg_cfg s
    ∧ (∀ l, l ≠ ref → l < length (heap s) → heap s' !! l = heap s !! l)
    ∧ (∀ root name found,
         cfg_get_json root name s = Ret found s →
         cfg_get_json root name s' = Ret found s')
    ∧ cfg_compute_root_files s' = Ret (Some ref, result) s'.
Proof.
  intros Hflag Henf Hkey [_ Hres]%cfg_get_json_Ret Hnames Hhead.
  pose proof Hnames as (elems & Href & HF)%json_array_strings_Some.
  assert (Hlt : ref < length (heap s)) by (by eapply lookup_lt_Some).
  pose proof (after_prepend_not_led s ref elems names Href Hnames Hhead) as Hafter.
  pose proof (after_prepend_strings s ref names Hnames) as Hstrings.
  rewrite Hafter in Hstrings.
  assert (Hensure : ensure_watchmanconfig_first names
                    = ".watchmanconfig" :: names).
  { destruct names as [|n names]; [done|]. simpl.
    destruct (String.eqb n ".watchmanconfig") eqn:Heq; [|done].
    apply String.eqb_eq in Heq as ->. by destruct Hhead. }
  rewrite Hensure in Hstrings.
  set (s' := prepended s ref elems) in *.
  assert (Harr' : is_array_of_strings (heap s') (Some ref) = true).
  { apply is_array_of_strings_iff. by rewrite Hstrings. }
  assert (Harr : is_array_of_strings (heap s) (Some ref) = true).
  { apply is_array_of_strings_iff. by rewrite Hnames. }
  pose proof (prepended_cfg_get_bool s ref elems elems Href _ _ _ _ Hflag)
    as Hflag'.
  pose proof (prepended_cfg_get_bool s ref elems elems Href _ _ _ _ Henf)
    as Henf'.
  fold s' in Hflag', Henf'.
  assert (Hresolve : ∀ root name, resolve s' root name = resolve s root name).
  { intros root name. by apply (prepended_resolve s ref elems elems). }
  assert (Hcalls : ∃ result,
    cfg_compute_root_files s = Ret (Some ref, result) s'
    ∧ cfg_compute_root_files s' = Ret (Some ref, result) s').
  { rewrite (cfg_compute_root_files_run s ignore enforcing Hflag Henf).
    rewrite (cfg_compute_root_files_run s' ignore enforcing Hflag' Henf').
    rewrite !Hresolve.
    destruct Hkey as [-> | (-> & -> & [_ Hrf]%cfg_get_json_Ret)].
    - exists enforcing. rewrite Hres, Harr, Harr', Hafter.
      by rewrite (after_prepend_led s' ref names Hstrings).
    - exists true. rewrite Hrf, Hres, Harr, Harr', Hafter.
      by rewrite (after_prepend_led s' ref names Hstrings). }
  destruct Hcalls as (result & Hfirst & Hsecond).
  exists elems, result, s'. split_and!; try done.
  - by apply prepended_lookup_ref.
  - by apply prepended_lookup_new.
  - by rewrite cfg_get_json_run, Hresolve, Hres.
  - intros l Hne Hl. by apply prepended_lookup_ne.
  - intros root name found [_ <-]%cfg_get_json_Ret.
    by rewrite cfg_get_json_run, Hresolve.
Qed.

Lemma prepend_is_written_in_place_witness :
  ∃ elems result s',
    heap legacy_config !! 2 = Some (JArray elems)
    ∧ cfg_compute_root_files legacy_config = Ret (Some 2, result) s'
    ∧ heap s' !! 2 = Some (JArray (length (heap legacy_config) :: elems))
    ∧ heap s' !! length (heap legacy_config) = Some (JString ".watchmanconfig")
    ∧ cfg_get_json None "root_restrict_files" s' = Ret (Some 2) s'
    ∧ json_array_strings (heap s') (Some 2) = Some [".watchmanconfig"; "bar"]
    ∧ global_cfg s' = global_cfg legacy_config
    ∧ arg_cfg s' = arg_cfg legacy_config
    ∧ (∀ l, l ≠ 2 → l < length (heap legacy_config) →
            heap s' !! l = heap legacy_config !! l)
    ∧ (∀ root name found,
         cfg_get_json root name legacy_config = Ret found legacy_config →
         cfg_get_json root name s' = Ret found s')
    ∧ cfg_compute_root_files s' = Ret (Some 2, result) s'.
Proof.
  apply (prepend_is_written_in_place legacy_config false false
           "root_restrict_files" 2 ["bar"]);
    [evaluate | evaluate | right; split_and!; evaluate | evaluate | evaluate |].
  vm_compute. discriminate.
Defined.

(** ** The examples of the specification, run *)

Example empty_root_files_becomes_singleton :
  returned_markers (cfg_compute_root_files empty_root_files_config)
  = Some [".watchmanconfig"].
Proof. evaluate. Qed.

Example mixed_root_files_is_fatal :
  cfg_compute_root_files mixed_root_files_config
  = Fatal ("global config root_files must be an array of strings" +:+ nl).
Proof. evaluate. Qed.

Example opted_out_default :
  returned_markers (cfg_compute_root_files opted_out_config)
  = Some [".hg"; ".git"; ".svn"].
Proof. evaluate. Qed.

Example second_set_overwrites :
  let setup :=
    let* one := json_alloc (JInteger 1) in
    let* two := json_alloc (JInteger 2) in
    run cfg_set_global "k" one in
    run cfg_set_global "k" two in
    cfg_get_int None "k" 0 in
  ∃ s, setup no_config = Ret 2%Z s.
Proof. eexists. evaluate. Qed.

(** ** The setters *)

Lemma cfg_state_eta s : CfgState (heap s) (global_cfg s) (arg_cfg s) = s.
Proof. by destruct s. Qed.

Lemma swap_layers_involutive s : swap_layers (swap_layers s) = s.
Proof. by destruct s. Qed.

Lemma cfg_set_arg_swap name val s :
  cfg_set_arg name val s
  = outcome_map swap_layers (cfg_set_global name val (swap_layers s)).
Proof.
  unfold cfg_set_arg, cfg_set_global, bind, get_arg_cfg, get_global_cfg,
    json_object, json_alloc, put_arg_cfg, put_global_cfg,
    json_object_set_nocheck, bind, get_heap, put_heap, ret.
  destruct s as [h g [a|]]; simpl.
  - destruct val as [v|]; [|done].
    destruct (h !! a) as [[]|]; try done. by case_decide.
  - destruct val as [v|]; [|done].
    rewrite list_lookup_middle by done. by case_decide.
Qed.

(** First write to a layer that does not exist yet. *)
Lemma cfg_set_global_create name v s :
  global_cfg s = None → v ≠ length (heap s) →
  cfg_set_global name (Some v) s
  = Ret tt (CfgState (heap s ++ [JObject {[ name := v ]}])
              (Some (length (heap s))) (arg_cfg s)).
Proof.
  destruct s as [h g a]; simpl. intros -> Hv.
  unfold cfg_set_global, bind, get_global_cfg, json_object, json_alloc,
    put_global_cfg, json_object_set_nocheck, bind, get_heap, put_heap, ret.
  simpl. rewrite list_lookup_middle by done.
  rewrite decide_False by done. simpl.
  rewrite insert_app_r_alt by done. rewrite Nat.sub_diag. simpl.
  by rewrite insert_empty.
Qed.

(** Write to a layer that is an object. *)
Lemma cfg_set_global_merge name v s o fields :
  global_cfg s = Some o → heap s !! o = Some (JObject fields) → o ≠ v →
  cfg_set_global name (Some v) s
  = Ret tt (CfgState (<[o := JObject (<[name := v]> fields)]> (heap s))
              (Some o) (arg_cfg s)).
Proof.
  destruct s as [h g a]; simpl. intros -> Ho Hv.
  unfold cfg_set_global, bind, get_global_cfg, json_object, json_alloc,
    put_global_cfg, json_object_set_nocheck, bind, get_heap, put_heap, ret.
  simpl. rewrite Ho. by rewrite decide_False by done.
Qed.

(** A write that jansson refuses, on a layer that exists. *)
Lemma cfg_set_global_refused name val s o :
  global_cfg s = Some o →
  val = None ∨ val = Some o ∨ json_is_object (heap s) (Some o) = false →
  cfg_set_global name val s = Ret tt s.
Proof.
  destruct s as [h g a]; simpl. intros -> Hval.
  unfold cfg_set_global, bind, get_global_cfg, json_object, json_alloc,
    put_global_cfg, json_object_set_nocheck, bind, get_heap, put_heap, ret.
  simpl. destruct val as [v|]; [|done].
  unfold json_is_object in Hval; simpl in Hval.
  destruct (h !! o) as [[]|]; try done.
  case_decide; [done|]. by destruct Hval as [? | [[= ->] | ?]].
Qed.

(** A write that jansson refuses, on a layer that does not exist yet: the
    empty object is created all the same. *)
Lemma cfg_set_global_create_empty name val s :
  global_cfg s = None →
  val = None ∨ val = Some (length (heap s)) →
  cfg_set_global name val s
  = Ret tt (CfgState (heap s ++ [JObject ∅]) (Some (length (heap s)))
              (arg_cfg s)).
Proof.
  destruct s as [h g a]; simpl. intros -> Hval.
  unfold cfg_set_global, bind, get_global_cfg, json_object, json_alloc,
    put_global_cfg, json_object_set_nocheck, bind, get_heap, put_heap, ret.
  simpl. destruct Hval as [-> | ->]; [done|].
  rewrite list_lookup_middle by done. by rewrite decide_True by done.
Qed.

(** Whatever is written, the call returns, the global pointer is set and
    stays where it was, and only the cell it points to can differ. *)
Lemma cfg_set_global_total name val s :
  ∃ s',
    cfg_set_global name val s = Ret tt s'
    ∧ arg_cfg s' = arg_cfg s
    ∧ global_cfg s' = Some (default (length (heap s)) (global_cfg s))
    ∧ (∀ l, Some l ≠ global_cfg s' → heap s' !! l = heap s !! l).
Proof.
  destruct (global_cfg s) as [o|] eqn:Hg; simpl.
  - destruct val as [v|];
      [|exists s; rewrite (cfg_set_global_refused name None s o); auto].
    destruct (decide (o = v)) as [<- | Hne];
      [exists s; rewrite (cfg_set_global_refused name (Some o) s o); auto|].
    destruct (heap s !! o) as [n|] eqn:Ho.
    + destruct n;
        try (exists s; rewrite (cfg_set_global_refused name (Some v) s o);
             [done | done | right; right; unfold json_is_object; simpl;
                            by rewrite Ho]).
      eexists. rewrite (cfg_set_global_merge name v s o fields) by done.
      split_and!; try done. simpl. intros l Hl.
      apply list_lookup_insert_ne. congruence.
    + exists s. rewrite (cfg_set_global_refused name (Some v) s o);
        [done | done |]. right; right. unfold json_is_object; simpl.
      by rewrite Ho.
  - assert (Hframe : ∀ (n : json_node) l,
      Some l ≠ Some (length (heap s)) →
      (heap s ++ [n])%list !! l = heap s !! l).
    { intros n l Hl. destruct (decide (l < length (heap s))).
      - by apply lookup_app_l.
      - rewrite !lookup_ge_None_2; [done | lia |].
        rewrite length_app. simpl.
        assert (l ≠ length (heap s)) by congruence. lia. }
    destruct val as [v|];
      [|eexists; rewrite (cfg_set_global_create_empty name None s) by auto;
        split_and!; try done; apply Hframe].
    destruct (decide (v = length (heap s))) as [-> | Hne].
    + eexists. rewrite (cfg_set_global_create_empty name _ s) by auto.
      split_and!; try done. apply Hframe.
    + eexists. rewrite (cfg_set_global_create name v s) by done.
      split_and!; try done. apply Hframe.
Qed.

(** An accepted write binds the key and leaves the other keys of the
    layer bound as they were. *)
Lemma cfg_set_global_accepted name v s :
  layer_accepts (heap s) (global_cfg s) v →
  ∃ s',
    cfg_set_global name (Some v) s = Ret tt s'
    ∧ json_object_get (heap s') (global_cfg s') name = Some v
    ∧ (∀ other, other ≠ name →
         json_object_get (heap s') (global_cfg s') other
         = json_object_get (heap s) (global_cfg s) other).
Proof.
  intros [Hv Hlayer]. destruct (global_cfg s) as [o|] eqn:Hg.
  - destruct Hlayer as [Hne [fields Ho]].
    assert (Hlt : o < length (heap s)) by (by eapply lookup_lt_Some).
    eexists. rewrite (cfg_set_global_merge name v s o fields) by done.
    split_and!; [done | |]; unfold json_object_get; simpl.
    + rewrite list_lookup_insert_eq by done. apply lookup_insert_eq.
    + intros other Hother. rewrite list_lookup_insert_eq, Ho by done.
      by apply lookup_insert_ne.
  - eexists. rewrite (cfg_set_global_create name v s) by (done || lia).
    split_and!; [done | |]; unfold json_object_get; simpl.
    + rewrite list_lookup_middle by done. apply lookup_singleton_eq.
    + intros other Hother. rewrite list_lookup_middle by done.
      by apply lookup_singleton_ne.
Qed.

(** X1. A value written with [cfg_set_global] is what the global layer
    then holds for that key; every other key of the layer, the argument
    pointer and every cell but the layer's object are as before; and
    [cfg_get_json] finds the new value whenever the argument layer has no
    entry for the key. *)
Theorem cfg_set_global_then_get name v s :
  layer_accepts (heap s) (global_cfg s) v →
  ∃ s',
    cfg_set_global name (Some v) s = Ret tt s'
    ∧ json_object_get (heap s') (global_cfg s') name = Some v
    ∧ (∀ other, other ≠ name →
         json_object_get (heap s') (global_cfg s') other
         = json_object_get (heap s) (global_cfg s) other)
    ∧ arg_cfg s' = arg_cfg s
    ∧ (∀ l, Some l ≠ global_cfg s' → heap s' !! l = heap s !! l)
    ∧ (json_object_get (heap s) (arg_cfg s) name = None →
       cfg_get_json None name s' = Ret (Some v) s').
Proof.
  intros Hacc.
  destruct (cfg_set_global_accepted name v s Hacc) as (s' & Hrun & Hget & Hothers).
  destruct (cfg_set_global_total name (Some v) s) as (s2 & Hrun2 & Harg & _ & Hframe).
  rewrite Hrun in Hrun2. injection Hrun2 as <-.
  exists s'. split_and!; try done.
  intros Hnone. rewrite cfg_get_json_run. unfold resolve, root_view_get.
  simpl first_hit. rewrite Harg.
  destruct (decide (arg_cfg s = global_cfg s')) as [-> | Hne].
  - by rewrite Hget.
  - assert (json_object_get (heap s') (arg_cfg s) name = None) as ->.
    { destruct (arg_cfg s) as [a|]; [|done].
      unfold json_object_get, deref in *. by rewrite Hframe. }
    by rewrite Hget.
Qed.

Lemma cfg_set_global_then_get_witness :
  ∃ s',
    cfg_set_global "url" (Some 2) one_key_config = Ret tt s'
    ∧ json_object_get (heap s') (global_cfg s') "url" = Some 2
    ∧ (∀ other, other ≠ "url" →
         json_object_get (heap s') (global_cfg s') other
         = json_object_get (heap one_key_config)
             (global_cfg one_key_config) other)
    ∧ arg_cfg s' = arg_cfg one_key_config
    ∧ (∀ l, Some l ≠ global_cfg s' → heap s' !! l = heap one_key_config !! l)
    ∧ (json_object_get (heap one_key_config) (arg_cfg one_key_config) "url"
       = None →
       cfg_get_json None "url" s' = Ret (Some 2) s').
Proof.
  apply (cfg_set_global_then_get "url" 2 one_key_config).
  split; [vm_compute; lia|]. split; [done|]. eexists. evaluate.
Defined.

Lemma cfg_set_arg_total name val s :
  ∃ s',
    cfg_set_arg name val s = Ret tt s'
    ∧ global_cfg s' = global_cfg s
    ∧ arg_cfg s' = Some (default (length (heap s)) (arg_cfg s))
    ∧ (∀ l, Some l ≠ arg_cfg s' → heap s' !! l = heap s !! l).
Proof.
  destruct (cfg_set_global_total name val (swap_layers s))
    as (s' & Hrun & Harg & Hglobal & Hframe).
  exists (swap_layers s'). rewrite cfg_set_arg_swap, Hrun. by split_and!.
Qed.

Lemma cfg_set_arg_accepted name v s :
  layer_accepts (heap s) (arg_cfg s) v →
  ∃ s',
    cfg_set_arg name (Some v) s = Ret tt s'
    ∧ json_object_get (heap s') (arg_cfg s') name = Some v
    ∧ (∀ other, other ≠ name →
         json_object_get (heap s') (arg_cfg s') other
         = json_object_get (heap s) (arg_cfg s) other).
Proof.
  intros Hacc.
  destruct (cfg_set_global_accepted name v (swap_layers s) Hacc)
    as (s' & Hrun & Hget & Hothers).
  exists (swap_layers s'). rewrite cfg_set_arg_swap, Hrun. by split_and!.
Qed.

(** X2. A value written with [cfg_set_arg] is what [cfg_get_json] then
    finds for that key when no root is given, whatever the global layer
    holds for it; the other keys of the argument layer and the global
    pointer are as before. *)
Theorem cfg_set_arg_then_get name v s :
  layer_accepts (heap s) (arg_cfg s) v →
  ∃ s',
    cfg_set_arg name (Some v) s = Ret tt s'
    ∧ cfg_get_json None name s' = Ret (Some v) s'
    ∧ (∀ other, other ≠ name →
         json_object_get (heap s') (arg_cfg s') other
         = json_object_get (heap s) (arg_cfg s) other)
    ∧ global_cfg s' = global_cfg s
    ∧ (∀ l, Some l ≠ arg_cfg s' → heap s' !! l = heap s !! l).
Proof.
  intros Hacc.
  destruct (cfg_set_arg_accepted name v s Hacc) as (s' & Hrun & Hget & Hothers).
  destruct (cfg_set_arg_total name (Some v) s) as (s2 & Hrun2 & Hglobal & _ & Hframe).
  rewrite Hrun in Hrun2. injection Hrun2 as <-.
  exists s'. split_and!; try done.
  rewrite cfg_get_json_run. unfold resolve, root_view_get. simpl first_hit.
  by rewrite Hget.
Qed.

Lemma cfg_set_arg_then_get_witness :
  ∃ s',
    cfg_set_arg "k" (Some 2) one_key_config = Ret tt s'
    ∧ cfg_get_json None "k" s' = Ret (Some 2) s'
    ∧ (∀ other, other ≠ "k" →
         json_object_get (heap s') (arg_cfg s') other
         = json_object_get (heap one_key_config) (arg_cfg one_key_config) other)
    ∧ global_cfg s' = global_cfg one_key_config
    ∧ (∀ l, Some l ≠ arg_cfg s' → heap s' !! l = heap one_key_config !! l).
Proof.
  apply (cfg_set_arg_then_get "k" 2 one_key_config).
  split; [vm_compute; lia | done].
Defined.

Lemma cfg_set_global_twice name first v s :
  layer_accepts (heap s) (global_cfg s) v →
  (run cfg_set_global name first in cfg_set_global name (Some v)) s
  = cfg_set_global name (Some v) s.
Proof.
  intros [Hv Hlayer]. unfold bind. destruct (global_cfg s) as [o|] eqn:Hg.
  - destruct Hlayer as [Hne [fields Ho]].
    assert (Hlt : o < length (heap s)) by (by eapply lookup_lt_Some).
    rewrite (cfg_set_global_merge name v s o fields) by done.
    destruct first as [w|];
      [|by rewrite (cfg_set_global_refused name None s o),
             (cfg_set_global_merge name v s o fields) by auto].
    destruct (decide (o = w)) as [<- | Hw];
      [by rewrite (cfg_set_global_refused name (Some o) s o),
            (cfg_set_global_merge name v s o fields) by auto|].
    rewrite (cfg_set_global_merge name w s o fields) by done.
    rewrite (cfg_set_global_merge name v _ o (<[name := w]> fields));
      [|done | by apply list_lookup_insert_eq | done].
    simpl. by rewrite list_insert_insert_eq, insert_insert_eq.
  - rewrite (cfg_set_global_create name v s) by (done || lia).
    assert (Hsecond : ∀ fields a,
      cfg_set_global name (Some v)
        (CfgState (heap s ++ [JObject fields]) (Some (length (heap s))) a)
      = Ret tt (CfgState (heap s ++ [JObject (<[name := v]> fields)])
                  (Some (length (heap s))) a)).
    { intros fields a.
      rewrite (cfg_set_global_merge name v _ (length (heap s)) fields);
        [|done | by apply list_lookup_middle | lia].
      simpl. rewrite insert_app_r_alt by done.
      by rewrite Nat.sub_diag. }
    destruct first as [w|];
      [|rewrite (cfg_set_global_create_empty name None s) by auto;
        by rewrite Hsecond, insert_empty].
    destruct (decide (w = length (heap s))) as [-> | Hw].
    + rewrite (cfg_set_global_create_empty name _ s) by auto.
      by rewrite Hsecond, insert_empty.
    + rewrite (cfg_set_global_create name w s) by done.
      by rewrite Hsecond, insert_singleton_eq.
Qed.

(** X3. Writing a key twice leaves what writing the second value alone
    leaves, whatever the first call was given (a value, NULL, or a value
    jansson refuses): both sequences return in the same state, in which
    the layer holds the second value for the key and every other key as it
    was before the two writes.  This holds for both setters. *)
Theorem second_write_wins name first v s :
  (layer_accepts (heap s) (global_cfg s) v →
   ∃ s',
     (run cfg_set_global name first in cfg_set_global name (Some v)) s
     = Ret tt s'
     ∧ cfg_set_global name (Some v) s = Ret tt s'
     ∧ json_object_get (heap s') (global_cfg s') name = Some v
     ∧ (∀ other, other ≠ name →
          json_object_get (heap s') (global_cfg s') other
          = json_object_get (heap s) (global_cfg s) other))
  ∧ (layer_accepts (heap s) (arg_cfg s) v →
     ∃ s',
       (run cfg_set_arg name first in cfg_set_arg name (Some v)) s
       = Ret tt s'
       ∧ cfg_set_arg name (Some v) s = Ret tt s'
       ∧ json_object_get (heap s') (arg_cfg s') name = Some v
       ∧ (∀ other, other ≠ name →
            json_object_get (heap s') (arg_cfg s') other
            = json_object_get (heap s) (arg_cfg s) other)).
Proof.
  split; intros Hacc.
  - destruct (cfg_set_global_accepted name v s Hacc)
      as (s' & Hrun & Hget & Hothers).
    exists s'. rewrite (cfg_set_global_twice name first v s Hacc).
    by split_and!.
  - destruct (cfg_set_arg_accepted name v s Hacc)
      as (s' & Hrun & Hget & Hothers).
    exists s'. split_and!; [|done..].
    pose proof (cfg_set_global_twice name first v (swap_layers s) Hacc)
      as Htwice.
    rewrite <- Hrun, (cfg_set_arg_swap name (Some v) s), <- Htwice.
    unfold bind. rewrite cfg_set_arg_swap.
    destruct (cfg_set_global name first (swap_layers s)) as [[] s1| |]; simpl;
      [|done..].
    by rewrite cfg_set_arg_swap, swap_layers_involutive.
Qed.

Lemma second_write_wins_witness :
  (∃ s',
     (run cfg_set_global "k" (Some 2) in cfg_set_global "k" (Some 1))
       one_key_config = Ret tt s'
     ∧ cfg_set_global "k" (Some 1) one_key_config = Ret tt s'
     ∧ json_object_get (heap s') (global_cfg s') "k" = Some 1
     ∧ (∀ other, other ≠ "k" →
          json_object_get (heap s') (global_cfg s') other
          = json_object_get (heap one_key_config)
              (global_cfg one_key_config) other))
  ∧ (∃ s',
       (run cfg_set_arg "k" None in cfg_set_arg "k" (Some 1)) one_key_config
       = Ret tt s'
       ∧ cfg_set_arg "k" (Some 1) one_key_config = Ret tt s'
       ∧ json_object_get (heap s') (arg_cfg s') "k" = Some 1
       ∧ (∀ other, other ≠ "k" →
            json_object_get (heap s') (arg_cfg s') other
            = json_object_get (heap one_key_config)
                (arg_cfg one_key_config) other)).
Proof.
  split.
  - apply (proj1 (second_write_wins "k" (Some 2) 1 one_key_config)).
    split; [vm_compute; lia|]. split; [done|]. eexists. evaluate.
  - apply (proj2 (second_write_wins "k" None 1 one_key_config)).
    split; [vm_compute; lia | done].
Defined.

(** X4. The setters always return.  Each creates its own layer when it is
    missing and otherwise leaves its pointer where it was; neither touches
    the other layer's pointer, nor any cell but the object of its own
    layer. *)
Theorem setters_keep_the_layers name val s :
  ∃ sg sa,
    cfg_set_global name val s = Ret tt sg
    ∧ cfg_set_arg name val s = Ret tt sa
    ∧ is_Some (global_cfg sg) ∧ is_Some (arg_cfg sa)
    ∧ (is_Some (global_cfg s) → global_cfg sg = global_cfg s)
    ∧ (is_Some (arg_cfg s) → arg_cfg sa = arg_cfg s)
    ∧ arg_cfg sg = arg_cfg s ∧ global_cfg sa = global_cfg s
    ∧ (∀ l, Some l ≠ global_cfg sg → heap sg !! l = heap s !! l)
    ∧ (∀ l, Some l ≠ arg_cfg sa → heap sa !! l = heap s !! l).
Proof.
  destruct (cfg_set_global_total name val s) as (sg & Hg & Hga & Hgg & Hgf).
  destruct (cfg_set_arg_total name val s) as (sa & Ha & Hag & Haa & Haf).
  exists sg, sa. split_and!; try done; rewrite ?Hgg, ?Haa;
    try (by eexists); intros [o Ho]; by rewrite Ho.
Qed.

Lemma json_object_get_app_empty h p k :
  json_object_get (h ++ [JObject ∅]) p k = json_object_get h p k.
Proof.
  destruct p as [l|]; [|done]. unfold json_object_get, deref.
  destruct (lt_eq_lt_dec l (length h)) as [[Hl | ->] | Hl].
  - by rewrite lookup_app_l.
  - rewrite list_lookup_middle by done.
    by rewrite lookup_ge_None_2, lookup_empty by done.
  - rewrite !lookup_ge_None_2; [done | lia |]. rewrite length_app. simpl. lia.
Qed.

Lemma cfg_set_global_NULL name s :
  ∃ s',
    cfg_set_global name None s = Ret tt s'
    ∧ arg_cfg s' = arg_cfg s
    ∧ (∀ p k, json_object_get (heap s') p k = json_object_get (heap s) p k)
    ∧ (∀ k, json_object_get (heap s') (global_cfg s') k
            = json_object_get (heap s) (global_cfg s) k).
Proof.
  destruct (global_cfg s) as [o|] eqn:Hg.
  - exists s. rewrite (cfg_set_global_refused name None s o) by auto.
    by rewrite Hg.
  - eexists. rewrite (cfg_set_global_create_empty name None s) by auto.
    split_and!; [done | done | |]; simpl.
    + intros p k. apply json_object_get_app_empty.
    + intros k. unfold json_object_get; simpl.
      by rewrite list_lookup_middle, lookup_empty.
Qed.

(** X5. Writing NULL binds nothing: the call may create its layer, empty,
    but every key, in every layer and under every root view, resolves as
    before.  This holds for both setters. *)
Theorem set_NULL_binds_nothing name s :
  ∃ sg sa,
    cfg_set_global name None s = Ret tt sg
    ∧ cfg_set_arg name None s = Ret tt sa
    ∧ ∀ root k found,
        cfg_get_json root k s = Ret found s →
        cfg_get_json root k sg = Ret found sg
        ∧ cfg_get_json root k sa = Ret found sa.
Proof.
  destruct (cfg_set_global_NULL name s) as (sg & Hg & Hga & Hgp & Hgl).
  destruct (cfg_set_global_NULL name (swap_layers s))
    as (sa & Ha & Hag & Hap & Hal).
  exists sg, (swap_layers sa). rewrite cfg_set_arg_swap, Ha.
  split_and!; [done | done |].
  intros root k found [_ <-]%cfg_get_json_Ret.
  rewrite !cfg_get_json_run. unfold resolve, root_view_get; simpl in *.
  rewrite Hga, Hag, Hgl, Hal, !Hgp, !Hap.
  by destruct root; rewrite ?Hgp, ?Hap.
Qed.

(** X6. An entry of the argument layer shadows any later write to the
    global layer: whatever [cfg_set_global] is given for that key,
    [cfg_get_json] still finds the argument layer's entry. *)
Theorem arg_entry_shadows_global_write name a val s :
  json_object_get (heap s) (arg_cfg s) name = Some a →
  arg_cfg s ≠ global_cfg s →
  ∃ s',
    cfg_set_global name val s = Ret tt s'
    ∧ cfg_get_json None name s' = Ret (Some a) s'.
Proof.
  intros Ha Hdistinct.
  destruct (cfg_set_global_total name val s) as (s' & Hrun & Harg & Hglobal & Hframe).
  exists s'. split; [done|].
  rewrite cfg_get_json_run. unfold resolve, root_view_get. simpl first_hit.
  rewrite Harg.
  assert (json_object_get (heap s') (arg_cfg s) name = Some a) as ->; [|done].
  apply json_object_get_Some in Ha as (al & fields & Hal & Hcell & Hfield).
  apply json_object_get_Some. exists al, fields. split_and!; [done | | done].
  rewrite Hframe; [done|]. rewrite Hglobal.
  destruct (global_cfg s) as [o|] eqn:Hg; simpl.
  - congruence.
  - apply lookup_lt_Some in Hcell. intros [= ->]. lia.
Qed.

Lemma arg_entry_shadows_global_write_witness :
  ∃ s',
    cfg_set_global "k" (Some 3) layered_config = Ret tt s'
    ∧ cfg_get_json None "k" s' = Ret (Some 4) s'.
Proof.
  apply (arg_entry_shadows_global_write "k" 4 (Some 3) layered_config);
    [evaluate | done].
Defined.

(** ** What the accessors can return *)

(** X7. Whatever [cfg_get_string], [cfg_get_int] or [cfg_get_bool]
    returns, the state is as it was, and the value is either the default,
    on a key that is absent everywhere, or the content of a resolved cell
    of the accessor's own type. *)
Theorem accessor_returns_are_sound root name s :
  (∀ defval r s',
     cfg_get_string root name defval s = Ret r s' →
     s' = s
     ∧ ((cfg_get_json root name s = Ret None s ∧ r = defval)
        ∨ ∃ l v, cfg_get_json root name s = Ret (Some l) s
                 ∧ heap s !! l = Some (JString v) ∧ r = Some v))
  ∧ (∀ defval r s',
       cfg_get_int root name defval s = Ret r s' →
       s' = s
       ∧ ((cfg_get_json root name s = Ret None s ∧ r = defval)
          ∨ ∃ l, cfg_get_json root name s = Ret (Some l) s
                 ∧ heap s !! l = Some (JInteger r)))
  ∧ (∀ defval r s',
       cfg_get_bool root name defval s = Ret r s' →
       s' = s
       ∧ ((cfg_get_json root name s = Ret None s ∧ r = defval)
          ∨ ∃ l, cfg_get_json root name s = Ret (Some l) s
                 ∧ heap s !! l = Some (if r then JTrue else JFalse))).
Proof.
  rewrite cfg_get_json_run. split_and!; intros defval r s'.
  - rewrite cfg_get_string_run.
    destruct (resolve s root name) as [l|]; [|intros [= <- <-]; auto].
    unfold json_is_string, json_string_value, deref.
    destruct (heap s !! l) as [n|] eqn:Hl; [destruct n|]; try done.
    intros [= <- <-]. split; [done|]. right.
    eexists _, _. split_and!; [reflexivity | exact Hl | reflexivity].
  - rewrite cfg_get_int_run.
    destruct (resolve s root name) as [l|]; [|intros [= <- <-]; auto].
    unfold json_is_integer, json_integer_value, deref.
    destruct (heap s !! l) as [n|] eqn:Hl; [destruct n|]; try done.
    intros [= <- <-]. split; [done|]. right. eexists. split; [reflexivity|].
    exact Hl.
  - rewrite cfg_get_bool_run.
    destruct (resolve s root name) as [l|]; [|intros [= <- <-]; auto].
    unfold json_is_boolean, json_is_true, json_is_false, deref.
    destruct (heap s !! l) as [n|] eqn:Hl; [destruct n|]; try done;
      intros [= <- <-]; (split; [done|]); right; eexists;
      (split; [reflexivity|]); exact Hl.
Qed.

Lemma accessor_returns_are_sound_witness :
  typed_config = typed_config
  ∧ ((cfg_get_json None "count" typed_config = Ret None typed_config
      ∧ 5%Z = 0%Z)
     ∨ ∃ l, cfg_get_json None "count" typed_config = Ret (Some l) typed_config
            ∧ heap typed_config !! l = Some (JInteger 5)).
Proof.
  apply (proj1 (proj2 (accessor_returns_are_sound None "count" typed_config))
           0%Z 5%Z typed_config).
  evaluate.
Defined.

(** X8. On a key that resolves to an integer cell, [cfg_get_double]
    returns 0.0, whatever the integer and whatever the default: the cell
    passes [json_is_number] and its content is then read with
    [json_real_value]. *)
Theorem cfg_get_double_of_integer root name s l z defval :
  cfg_get_json root name s = Ret (Some l) s →
  heap s !! l = Some (JInteger z) →
  cfg_get_double root name defval s = Ret 0%float s.
Proof.
  intros [_ Hres]%cfg_get_json_Ret Hl.
  rewrite cfg_get_double_run, Hres.
  unfold json_is_number, json_is_integer, json_is_real, json_real_value, deref.
  by rewrite Hl.
Qed.

Lemma cfg_get_double_of_integer_witness :
  cfg_get_double None "count" 2.5 typed_config = Ret 0%float typed_config.
Proof.
  apply (cfg_get_double_of_integer None "count" typed_config 2 5%Z 2.5%float);
    evaluate.
Defined.

(** X9. [cfg_get_trouble_url] never returns NULL: it returns the built-in
    address when [troubleshooting_url] is set in neither layer, and
    otherwise the content of the string the key resolves to; on any other
    cell it does not return at all. *)
Theorem cfg_get_trouble_url_is_never_NULL s r s' :
  cfg_get_trouble_url s = Ret r s' →
  s' = s
  ∧ ∃ url, r = Some url
    ∧ ((cfg_get_json None "troubleshooting_url" s = Ret None s
        ∧ url = "https://facebook.github.io/watchman/docs/troubleshooting.html")
       ∨ ∃ l, cfg_get_json None "troubleshooting_url" s = Ret (Some l) s
              ∧ heap s !! l = Some (JString url)).
Proof.
  unfold cfg_get_trouble_url. rewrite cfg_get_string_run, cfg_get_json_run.
  destruct (resolve s None "troubleshooting_url") as [l|].
  - unfold json_is_string, json_string_value, deref.
    destruct (heap s !! l) as [n|] eqn:Hl; [destruct n|]; try done.
    intros [= <- <-]. split; [done|]. eexists. split; [done|]. right.
    eexists. split; [reflexivity | exact Hl].
  - intros [= <- <-]. split; [done|]. eexists. split; [done|]. by left.
Qed.

Lemma cfg_get_trouble_url_is_never_NULL_witness :
  no_config = no_config
  ∧ ∃ url,
      Some "https://facebook.github.io/watchman/docs/troubleshooting.html"
      = Some url
      ∧ ((cfg_get_json None "troubleshooting_url" no_config
          = Ret None no_config
          ∧ url
            = "https://facebook.github.io/watchman/docs/troubleshooting.html")
         ∨ ∃ l, cfg_get_json None "troubleshooting_url" no_config
                = Ret (Some l) no_config
                ∧ heap no_config !! l = Some (JString url)).
Proof.
  apply (cfg_get_trouble_url_is_never_NULL no_config
           (Some "https://facebook.github.io/watchman/docs/troubleshooting.html")
           no_config).
  evaluate.
Defined.

(** X10. A string written under [troubleshooting_url] with
    [cfg_set_global] is what [cfg_get_trouble_url] then returns, unless the
    argument layer has an entry for the key. *)
Theorem cfg_set_global_then_trouble_url v url s :
  layer_accepts (heap s) (global_cfg s) v →
  heap s !! v = Some (JString url) →
  json_object_get (heap s) (arg_cfg s) "troubleshooting_url" = None →
  ∃ s',
    (run cfg_set_global "troubleshooting_url" (Some v) in cfg_get_trouble_url) s
    = Ret (Some url) s'.
Proof.
  intros Hacc Hv Hnone.
  destruct (cfg_set_global_accepted "troubleshooting_url" v s Hacc)
    as (s' & Hrun & Hget & _).
  destruct (cfg_set_global_total "troubleshooting_url" (Some v) s)
    as (s2 & Hrun2 & Harg & Hglobal & Hframe).
  rewrite Hrun in Hrun2. injection Hrun2 as <-.
  exists s'. rewrite (bind_Ret _ _ _ _ _ Hrun).
  unfold cfg_get_trouble_url. rewrite cfg_get_string_run.
  assert (Hcell : heap s' !! v = Some (JString url)).
  { rewrite Hframe; [done|]. rewrite Hglobal. destruct Hacc as [Hlt Hlayer].
    destruct (global_cfg s) as [o|]; simpl.
    - destruct Hlayer as [Hne _]. congruence.
    - intros [= ->]. lia. }
  assert (Hres : resolve s' None "troubleshooting_url" = Some v).
  { unfold resolve, root_view_get. simpl first_hit. rewrite Harg.
    destruct (decide (arg_cfg s = global_cfg s')) as [-> | Hne].
    - by rewrite Hget.
    - assert (json_object_get (heap s') (arg_cfg s) "troubleshooting_url"
              = None) as ->.
      { destruct (arg_cfg s) as [a|]; [|done].
        unfold json_object_get, deref in *. by rewrite Hframe. }
      by rewrite Hget. }
  rewrite Hres. unfold json_is_string, json_string_value, deref.
  by rewrite Hcell.
Qed.

Lemma cfg_set_global_then_trouble_url_witness :
  ∃ s',
    (run cfg_set_global "troubleshooting_url" (Some 2) in cfg_get_trouble_url)
      one_key_config
    = Ret (Some "https://example.org/help") s'.
Proof.
  apply (cfg_set_global_then_trouble_url 2 "https://example.org/help"
           one_key_config); [|evaluate | evaluate].
  split; [vm_compute; lia|]. split; [done|]. eexists. evaluate.
Defined.

(** ** The type check and the prepend step *)

(** X11. [is_array_of_strings] answers true exactly on an array cell all
    of whose elements are string cells: false on NULL, on a dangling or
    non-array reference and as soon as one element is not a string; true
    on the empty array. *)
Theorem is_array_of_strings_exactly h ref :
  is_array_of_strings h ref = true ↔
  ∃ l elems,
    ref = Some l ∧ h !! l = Some (JArray elems)
    ∧ Forall (λ e, ∃ v, h !! e = Some (JString v)) elems.
Proof.
  assert (Hstr : ∀ e,
    is_Some (json_string_value h (Some e)) ↔ ∃ v, h !! e = Some (JString v)).
  { intros e. unfold json_string_value, deref.
    destruct (h !! e) as [n|] eqn:He; [destruct n|];
      split; intros H; try (by destruct H); by eexists. }
  split.
  - intros Htrue. destruct ref as [l|]; [|done].
    unfold is_array_of_strings, json_is_array, json_array_size, deref in Htrue.
    destruct (h !! l) as [n|] eqn:Hl; [destruct n|]; try done.
    simpl in Htrue.
    apply (is_array_of_strings_from_Forall h l elems (length elems) 0 Hl eq_refl)
      in Htrue.
    rewrite drop_0 in Htrue. exists l, elems. split_and!; [done..|].
    eapply Forall_impl; [exact Htrue|]. intros e. apply Hstr.
  - intros (l & elems & -> & Hl & Hall).
    unfold is_array_of_strings, json_is_array, json_array_size, deref.
    rewrite Hl. simpl.
    apply (is_array_of_strings_from_Forall h l elems (length elems) 0 Hl eq_refl).
    rewrite drop_0. eapply Forall_impl; [exact Hall|]. intros e. apply Hstr.
Qed.

(** X12. On an array of strings [prepend_watchmanconfig_to_array] is
    idempotent: a second call changes nothing. *)
Theorem prepend_watchmanconfig_to_array_idempotent s ref names :
  json_array_strings (heap s) (Some ref) = Some names →
  (run prepend_watchmanconfig_to_array (Some ref) in
   prepend_watchmanconfig_to_array (Some ref)) s
  = prepend_watchmanconfig_to_array (Some ref) s.
Proof.
  intros Hnames.
  rewrite (bind_Ret _ _ _ _ _
             (prepend_watchmanconfig_to_array_run s ref names Hnames)).
  pose proof (after_prepend_strings s ref names Hnames) as Hafter.
  destruct (ensure_watchmanconfig_first_head names) as [rest Hrest].
  rewrite Hrest in Hafter.
  rewrite (prepend_watchmanconfig_to_array_run _ ref _ Hafter).
  rewrite (after_prepend_led _ ref rest Hafter).
  symmetry. by apply prepend_watchmanconfig_to_array_run with names.
Qed.

Lemma prepend_watchmanconfig_to_array_idempotent_witness :
  (run prepend_watchmanconfig_to_array (Some 2) in
   prepend_watchmanconfig_to_array (Some 2)) legacy_config
  = prepend_watchmanconfig_to_array (Some 2) legacy_config.
Proof.
  apply (prepend_watchmanconfig_to_array_idempotent legacy_config 2 ["bar"]).
  evaluate.
Defined.

(** ** More on [cfg_compute_root_files] *)

(** What the prepend step leaves is either the state itself or the state
    with one string put in front. *)
Lemma after_prepend_cases s ref names :
  json_array_strings (heap s) (Some ref) = Some names →
  after_prepend s ref = s
  ∨ ∃ elems, heap s !! ref = Some (JArray elems)
             ∧ after_prepend s ref = prepended s ref elems.
Proof.
  intros (elems & Href & _)%json_array_strings_Some.
  unfold after_prepend. rewrite Href.
  destruct (json_string_value (heap s) (elems !! 0)) as [first|];
    [destruct (String.eqb first ".watchmanconfig")|]; eauto.
Qed.

Lemma after_prepend_frame s ref names :
  json_array_strings (heap s) (Some ref) = Some names →
  (∀ root k, resolve (after_prepend s ref) root k = resolve s root k)
  ∧ (∀ root k defval b,
       cfg_get_bool root k defval s = Ret b s →
       cfg_get_bool root k defval (after_prepend s ref)
       = Ret b (after_prepend s ref))
  ∧ (∀ l, l ≠ ref → l < length (heap s) →
          heap (after_prepend s ref) !! l = heap s !! l).
Proof.
  intros Hnames.
  destruct (after_prepend_cases s ref names Hnames)
    as [-> | (elems & Href & ->)]; [done|].
  split_and!.
  - intros root k. by apply prepended_resolve with elems.
  - intros root k defval b. by apply prepended_cfg_get_bool with elems.
  - intros l Hne Hl. by apply prepended_lookup_ne.
Qed.

(** X13. Once [cfg_compute_root_files] has returned an array stored under
    [root_files] or [root_restrict_files], calling it again returns the
    same array and the same [enforcing], and writes nothing more. *)
Theorem cfg_compute_root_files_settles s key stored result s' :
  key = "root_files" ∨ key = "root_restrict_files" →
  cfg_get_json None key s = Ret (Some stored) s →
  cfg_compute_root_files s = Ret result s' →
  cfg_compute_root_files s' = Ret result s'.
Proof.
  intros Hkey [_ Hstored]%cfg_get_json_Ret Hrun.
  destruct (cfg_compute_root_files_Ret _ _ _ Hrun)
    as (ignore & enforcing & Hflag & Henf).
  rewrite (cfg_compute_root_files_run s ignore enforcing Hflag Henf) in Hrun.
  assert (Hstep : ∀ ref names,
    json_array_strings (heap s) (Some ref) = Some names →
    let s1 := after_prepend s ref in
    cfg_get_bool None "_ignore_watchmanconfig" false s1 = Ret ignore s1
    ∧ cfg_get_bool None "enforce_root_files" false s1 = Ret enforcing s1
    ∧ (∀ k, resolve s1 None k = resolve s None k)
    ∧ is_array_of_strings (heap s1) (Some ref) = true
    ∧ after_prepend s1 ref = s1).
  { intros ref names Hnames s1. subst s1.
    destruct (after_prepend_frame s ref names Hnames) as (Hres & Hbool & _).
    pose proof (after_prepend_strings s ref names Hnames) as Hafter.
    destruct (ensure_watchmanconfig_first_head names) as [rest Hrest].
    rewrite Hrest in Hafter. split_and!; auto.
    - apply is_array_of_strings_iff. by rewrite Hafter.
    - by apply after_prepend_led with rest. }
  destruct (resolve s None "root_files") as [rf|] eqn:Hrf.
  { destruct (is_array_of_strings (heap s) (Some rf)) eqn:Harr; [|done].
    apply is_array_of_strings_iff in Harr as [names Hnames].
    injection Hrun as <- <-.
    destruct (Hstep rf names Hnames) as (Hflag' & Henf' & Hres & Harr' & Hfix).
    rewrite (cfg_compute_root_files_run _ ignore enforcing Hflag' Henf').
    by rewrite Hres, Hrf, Harr', Hfix. }
  destruct (resolve s None "root_restrict_files") as [rrf|] eqn:Hrrf.
  { destruct (is_array_of_strings (heap s) (Some rrf)) eqn:Harr; [|done].
    pose proof Harr as [names Hnames]%is_array_of_strings_iff.
    injection Hrun as <- <-. destruct ignore.
    - rewrite (cfg_compute_root_files_run s true enforcing Hflag Henf).
      by rewrite Hrf, Hrrf, Harr.
    - destruct (Hstep rrf names Hnames) as (Hflag' & Henf' & Hres & Harr' & Hfix).
      rewrite (cfg_compute_root_files_run _ false enforcing Hflag' Henf').
      by rewrite !Hres, Hrf, Hrrf, Harr', Hfix. }
  destruct Hkey as [-> | ->]; congruence.
Qed.

Lemma cfg_compute_root_files_settles_witness :
  cfg_compute_root_files (prepended legacy_config 2 [3])
  = Ret (Some 2, true) (prepended legacy_config 2 [3]).
Proof.
  apply (cfg_compute_root_files_settles legacy_config "root_restrict_files" 2);
    [by right | evaluate | evaluate].
Defined.

(** X14. Nothing is written when there is nothing to prepend: with
    [root_files] already led by ".watchmanconfig", or with
    [root_restrict_files] either led by it or read under the opt-out flag,
    the call returns the stored array and leaves the state exactly as it
    was. *)
Theorem nothing_to_prepend_writes_nothing s ignore enforcing ref names :
  cfg_get_bool None "_ignore_watchmanconfig" false s = Ret ignore s →
  cfg_get_bool None "enforce_root_files" false s = Ret enforcing s →
  json_array_strings (heap s) (Some ref) = Some names →
  (cfg_get_json None "root_files" s = Ret (Some ref) s →
   head names = Some ".watchmanconfig" →
   cfg_compute_root_files s = Ret (Some ref, enforcing) s)
  ∧ (cfg_get_json None "root_files" s = Ret None s →
     cfg_get_json None "root_restrict_files" s = Ret (Some ref) s →
     ignore = true ∨ head names = Some ".watchmanconfig" →
     cfg_compute_root_files s = Ret (Some ref, true) s).
Proof.
  intros Hflag Henf Hnames.
  assert (Harr : is_array_of_strings (heap s) (Some ref) = true).
  { apply is_array_of_strings_iff. by rewrite Hnames. }
  assert (Hled : head names = Some ".watchmanconfig" → after_prepend s ref = s).
  { destruct names as [|n rest]; [done|]. intros [= ->].
    by apply after_prepend_led with rest. }
  rewrite (cfg_compute_root_files_run s ignore enforcing Hflag Henf). split.
  - intros [_ ->]%cfg_get_json_Ret Hhead. by rewrite Harr, Hled.
  - intros [_ ->]%cfg_get_json_Ret [_ ->]%cfg_get_json_Ret Hwhy.
    rewrite Harr. destruct ignore; [done|].
    destruct Hwhy as [? | Hhead]; [done|]. by rewrite Hled.
Qed.

Lemma nothing_to_prepend_writes_nothing_witness :
  cfg_compute_root_files both_keys_config
  = Ret (Some 1, false) both_keys_config.
Proof.
  refine (proj1 (nothing_to_prepend_writes_nothing both_keys_config false false
                   1 [".watchmanconfig"; "foo"] _ _ _) _ _); evaluate.
Defined.

Lemma cfg_compute_root_files_enforce_fatal s ignore l :
  cfg_get_bool None "_ignore_watchmanconfig" false s = Ret ignore s →
  resolve s None "enforce_root_files" = Some l →
  json_is_boolean (heap s) (Some l) = false →
  cfg_compute_root_files s
  = Fatal ("Expected config value enforce_root_files to be boolean" +:+ nl).
Proof.
  intros Hflag Hres Hbool. unfold cfg_compute_root_files.
  rewrite (bind_Ret _ _ _ _ _ Hflag). cbv zeta.
  rewrite (bind_Ret _ _ _ _ _ (cfg_get_json_run None _ s)).
  rewrite Hres. simpl. unfold bind; simpl. by rewrite Hbool.
Qed.

(** X15. A marker list of the wrong shape ends the call in the fatal
    error: [root_files] that is not an array of strings does so whatever
    [root_restrict_files] holds, and [root_restrict_files] that is not an
    array of strings does so when [root_files] is unset. *)
Theorem malformed_marker_list_is_fatal s ignore enforcing ref :
  cfg_get_bool None "_ignore_watchmanconfig" false s = Ret ignore s →
  cfg_get_bool None "enforce_root_files" false s = Ret enforcing s →
  is_array_of_strings (heap s) (Some ref) = false →
  (cfg_get_json None "root_files" s = Ret (Some ref) s →
   cfg_compute_root_files s
   = Fatal ("global config root_files must be an array of strings" +:+ nl))
  ∧ (cfg_get_json None "root_files" s = Ret None s →
     cfg_get_json None "root_restrict_files" s = Ret (Some ref) s →
     cfg_compute_root_files s
     = Fatal ("deprecated global config root_restrict_files "
              +:+ "must be an array of strings" +:+ nl)).
Proof.
  intros Hflag Henf Harr.
  rewrite (cfg_compute_root_files_run s ignore enforcing Hflag Henf). split.
  - intros [_ ->]%cfg_get_json_Ret. by rewrite Harr.
  - intros [_ ->]%cfg_get_json_Ret [_ ->]%cfg_get_json_Ret. by rewrite Harr.
Qed.

Lemma malformed_marker_list_is_fatal_witness :
  cfg_compute_root_files malformed_root_files_config
  = Fatal ("global config root_files must be an array of strings" +:+ nl).
Proof.
  refine (proj1 (malformed_marker_list_is_fatal malformed_root_files_config
                   false false 1 _ _ _) _); evaluate.
Defined.

(** X16. The two boolean keys are type-checked before anything else is
    looked at.  An [_ignore_watchmanconfig] that is not a boolean ends the
    call in the fatal error even when [root_files] is set and the flag
    would play no part; an [enforce_root_files] that is not a boolean does
    so even when [root_restrict_files] is set and would force
    [enforcing]. *)
Theorem malformed_boolean_is_fatal s l n :
  heap s !! l = Some n →
  json_typeof n ≠ JSON_TRUE → json_typeof n ≠ JSON_FALSE →
  (cfg_get_json None "_ignore_watchmanconfig" s = Ret (Some l) s →
   cfg_compute_root_files s
   = Fatal ("Expected config value _ignore_watchmanconfig to be a boolean"
            +:+ nl))
  ∧ (∀ ignore,
       cfg_get_bool None "_ignore_watchmanconfig" false s = Ret ignore s →
       cfg_get_json None "enforce_root_files" s = Ret (Some l) s →
       cfg_compute_root_files s
       = Fatal ("Expected config value enforce_root_files to be boolean"
                +:+ nl)).
Proof.
  intros Hl Ht Hf.
  assert (Hbool : json_is_boolean (heap s) (Some l) = false).
  { unfold json_is_boolean, json_is_true, json_is_false, deref. rewrite Hl.
    by destruct n. }
  split.
  - intros [_ Hres]%cfg_get_json_Ret. unfold cfg_compute_root_files.
    apply bind_Fatal. by rewrite cfg_get_bool_run, Hres, Hbool.
  - intros ignore Hflag [_ Hres]%cfg_get_json_Ret.
    by apply cfg_compute_root_files_enforce_fatal with ignore l.
Qed.

Lemma malformed_boolean_is_fatal_witness :
  cfg_compute_root_files malformed_enforce_config
  = Fatal ("Expected config value enforce_root_files to be boolean" +:+ nl).
Proof.
  refine (proj2 (malformed_boolean_is_fatal malformed_enforce_config 1
                   (JString "yes") _ _ _) false _ _);
    try evaluate; done.
Defined.

(** X17. [cfg_compute_root_files] never runs into undefined behaviour:
    [strcmp] is only reached on an array whose element 0 has been checked
    to be a string.  In every state the call either returns or ends in the
    fatal error. *)
Theorem cfg_compute_root_files_is_defined s :
  cfg_compute_root_files s ≠ Undefined.
Proof.
  destruct (cfg_get_bool None "_ignore_watchmanconfig" false s)
    as [ignore s0| msg |] eqn:Hflag.
  - apply cfg_get_bool_Ret in Hflag as Hs0. destruct Hs0 as [-> _].
    destruct (resolve s None "enforce_root_files") as [l|] eqn:Hres.
    + destruct (json_is_boolean (heap s) (Some l)) eqn:Hbool.
      * assert (Henf : cfg_get_bool None "enforce_root_files" false s
                       = Ret (json_is_true (heap s) (Some l)) s)
          by (by rewrite cfg_get_bool_run, Hres, Hbool).
        rewrite (cfg_compute_root_files_run s ignore _ Hflag Henf).
        destruct (resolve s None "root_files") as [rf|];
          [by destruct (is_array_of_strings (heap s) (Some rf))|].
        destruct (resolve s None "root_restrict_files") as [rrf|];
          [by destruct (is_array_of_strings (heap s) (Some rrf))|].
        by rewrite (bind_Ret _ _ _ _ _ (json_pack_array_of_strings_run _ s)).
      * by rewrite (cfg_compute_root_files_enforce_fatal s ignore l).
    + assert (Henf : cfg_get_bool None "enforce_root_files" false s
                     = Ret false s) by (by rewrite cfg_get_bool_run, Hres).
      rewrite (cfg_compute_root_files_run s ignore _ Hflag Henf).
      destruct (resolve s None "root_files") as [rf|];
        [by destruct (is_array_of_strings (heap s) (Some rf))|].
      destruct (resolve s None "root_restrict_files") as [rrf|];
        [by destruct (is_array_of_strings (heap s) (Some rrf))|].
      by rewrite (bind_Ret _ _ _ _ _ (json_pack_array_of_strings_run _ s)).
  - unfold cfg_compute_root_files. by rewrite (bind_Fatal _ _ _ _ Hflag).
  - rewrite cfg_get_bool_run in Hflag.
    destruct (resolve s None "_ignore_watchmanconfig") as [l|]; [|done].
    by destruct (json_is_boolean (heap s) (Some l)).
Qed.

(** Cells appended to the heap that are arrays or strings change no
    object lookup and no boolean test. *)
Section appended_frame.
Variables (h new : list json_node).
Hypothesis Hnew :
  Forall (λ n, json_typeof n = JSON_ARRAY ∨ json_typeof n = JSON_STRING) new.

Lemma appended_deref l :
  (h ++ new)%list !! l = h !! l
  ∨ (h !! l = None
     ∧ ∃ n, (h ++ new)%list !! l = Some n
            ∧ (json_typeof n = JSON_ARRAY ∨ json_typeof n = JSON_STRING)).
Proof using Hnew.
  destruct (decide (l < length h)) as [Hl | Hl].
  - left. by apply lookup_app_l.
  - rewrite lookup_app_r by lia.
    destruct (new !! (l - length h)) as [n|] eqn:Hn.
    + right. split; [apply lookup_ge_None_2; lia|]. exists n. split; [done|].
      exact (Forall_lookup_1 _ new _ n Hnew Hn).
    + left. symmetry. apply lookup_ge_None_2. lia.
Qed.

Lemma appended_json_object_get p k :
  json_object_get (h ++ new)%list p k = json_object_get h p k.
Proof using Hnew.
  destruct p as [l|]; [|done]. unfold json_object_get, deref.
  destruct (appended_deref l) as [-> | (-> & n & -> & Hn)]; [done|].
  by destruct n, Hn.
Qed.

Lemma appended_json_is_boolean p :
  json_is_boolean (h ++ new)%list p = json_is_boolean h p.
Proof using Hnew.
  destruct p as [l|]; [|done].
  unfold json_is_boolean, json_is_true, json_is_false, deref.
  destruct (appended_deref l) as [-> | (-> & n & -> & Hn)]; [done|].
  by destruct n, Hn.
Qed.

Lemma appended_json_is_true p :
  json_is_true (h ++ new)%list p = json_is_true h p.
Proof using Hnew.
  destruct p as [l|]; [|done]. unfold json_is_true, deref.
  destruct (appended_deref l) as [-> | (-> & n & -> & Hn)]; [done|].
  by destruct n, Hn.
Qed.

Lemma appended_resolve g a root k :
  resolve (CfgState (h ++ new)%list g a) root k = resolve (CfgState h g a) root k.
Proof using Hnew.
  unfold resolve, root_view_get; simpl.
  destruct root as [r|]; by rewrite !appended_json_object_get.
Qed.

Lemma appended_cfg_get_bool g a root k defval b :
  cfg_get_bool root k defval (CfgState h g a) = Ret b (CfgState h g a) →
  cfg_get_bool root k defval (CfgState (h ++ new)%list g a)
  = Ret b (CfgState (h ++ new)%list g a).
Proof using Hnew.
  rewrite !cfg_get_bool_run, appended_resolve.
  destruct (resolve (CfgState h g a) root k) as [l|]; [|by intros [= ->]].
  simpl. rewrite appended_json_is_boolean, appended_json_is_true.
  destruct (json_is_boolean h (Some l)); [|done]. by intros [= ->].
Qed.
End appended_frame.

Lemma packed_cells_are_plain (locs : list loc) (args : list string) :
  Forall (λ n, json_typeof n = JSON_ARRAY ∨ json_typeof n = JSON_STRING)
    (JArray locs :: map JString args).
Proof.
  constructor; [by left|]. apply Forall_fmap, Forall_true. intros a. by right.
Qed.

(** X18. With neither key set the returned array is newly allocated: it
    lies beyond every cell of the heap the call started from, all those
    cells and both layer pointers are as before, and a second call
    allocates yet another array of its own and does not touch the
    first. *)
Theorem default_is_newly_allocated s ignore enforcing :
  cfg_get_bool None "_ignore_watchmanconfig" false s = Ret ignore s →
  cfg_get_bool None "enforce_root_files" false s = Ret enforcing s →
  cfg_get_json None "root_files" s = Ret None s →
  cfg_get_json None "root_restrict_files" s = Ret None s →
  ∃ s' s'',
    cfg_compute_root_files s = Ret (Some (length (heap s)), enforcing) s'
    ∧ global_cfg s' = global_cfg s ∧ arg_cfg s' = arg_cfg s
    ∧ (∀ l, l < length (heap s) → heap s' !! l = heap s !! l)
    ∧ length (heap s) < length (heap s')
    ∧ cfg_compute_root_files s' = Ret (Some (length (heap s')), enforcing) s''
    ∧ (∀ l, l < length (heap s') → heap s'' !! l = heap s' !! l).
Proof.
  intros Hflag Henf [_ Hrf]%cfg_get_json_Ret [_ Hrrf]%cfg_get_json_Ret.
  destruct s as [h g a]; simpl in *.
  set (cells := JArray (seq (S (length h)) (length (default_root_files ignore)))
                :: map JString (default_root_files ignore)).
  assert (Hplain : Forall (λ n, json_typeof n = JSON_ARRAY
                               ∨ json_typeof n = JSON_STRING) cells)
    by apply packed_cells_are_plain.
  set (s' := CfgState (h ++ cells)%list g a).
  assert (Hfirst : cfg_compute_root_files (CfgState h g a)
                   = Ret (Some (length h), enforcing) s').
  { rewrite (cfg_compute_root_files_run _ ignore enforcing Hflag Henf), Hrf, Hrrf.
    by rewrite (bind_Ret _ _ _ _ _ (json_pack_array_of_strings_run _ _)). }
  pose proof (appended_cfg_get_bool h cells Hplain g a _ _ _ _ Hflag) as Hflag'.
  pose proof (appended_cfg_get_bool h cells Hplain g a _ _ _ _ Henf) as Henf'.
  eexists s', _. split_and!; [done | done | done | | | |].
  - intros l Hl. simpl. by apply lookup_app_l.
  - simpl. rewrite length_app. simpl. lia.
  - rewrite (cfg_compute_root_files_run s' ignore enforcing Hflag' Henf').
    unfold s'. rewrite !(appended_resolve h cells Hplain), Hrf, Hrrf.
    by rewrite (bind_Ret _ _ _ _ _ (json_pack_array_of_strings_run _ _)).
  - intros l Hl. simpl. by apply lookup_app_l.
Qed.

Lemma default_is_newly_allocated_witness :
  ∃ s' s'',
    cfg_compute_root_files opted_out_config
    = Ret (Some (length (heap opted_out_config)), false) s'
    ∧ global_cfg s' = global_cfg opted_out_config
    ∧ arg_cfg s' = arg_cfg opted_out_config
    ∧ (∀ l, l < length (heap opted_out_config) →
            heap s' !! l = heap opted_out_config !! l)
    ∧ length (heap opted_out_config) < length (heap s')
    ∧ cfg_compute_root_files s' = Ret (Some (length (heap s')), false) s''
    ∧ (∀ l, l < length (heap s') → heap s'' !! l = heap s' !! l).
Proof.
  apply (default_is_newly_allocated opted_out_config true false); evaluate.
Defined.

(** X19. When [root_files] is set, [root_restrict_files] is not looked
    at: whatever it holds, well-formed or not, it is neither checked nor
    written, and [enforcing] is what [enforce_root_files] reads, not
    forced to true. *)
Theorem root_files_shadows_root_restrict_files s ignore enforcing ref names :
  cfg_get_bool None "_ignore_watchmanconfig" false s = Ret ignore s →
  cfg_get_bool None "enforce_root_files" false s = Ret enforcing s →
  cfg_get_json None "root_files" s = Ret (Some ref) s →
  json_array_strings (heap s) (Some ref) = Some names →
  ∃ s',
    cfg_compute_root_files s = Ret (Some ref, enforcing) s'
    ∧ (∀ found,
         cfg_get_json None "root_restrict_files" s = Ret found s →
         cfg_get_json None "root_restrict_files" s' = Ret found s')
    ∧ (∀ l, l ≠ ref → l < length (heap s) → heap s' !! l = heap s !! l).
Proof.
  intros Hflag Henf [_ Hrf]%cfg_get_json_Ret Hnames.
  destruct (after_prepend_frame s ref names Hnames) as (Hres & _ & Hframe).
  exists (after_prepend s ref). split_and!; [| |done].
  - rewrite (cfg_compute_root_files_run s ignore enforcing Hflag Henf), Hrf.
    by rewrite (proj2 (is_array_of_strings_iff _ _) (mk_is_Some _ _ Hnames)).
  - intros found [_ <-]%cfg_get_json_Ret. by rewrite cfg_get_json_run, Hres.
Qed.

Lemma root_files_shadows_root_restrict_files_witness :
  ∃ s',
    cfg_compute_root_files shadowed_legacy_config = Ret (Some 1, false) s'
    ∧ (∀ found,
         cfg_get_json None "root_restrict_files" shadowed_legacy_config
         = Ret found shadowed_legacy_config →
         cfg_get_json None "root_restrict_files" s' = Ret found s')
    ∧ (∀ l, l ≠ 1 → l < length (heap shadowed_legacy_config) →
            heap s' !! l = heap shadowed_legacy_config !! l).
Proof.
  apply (root_files_shadows_root_restrict_files shadowed_legacy_config
           false false 1 ["foo"]); evaluate.
Defined.

(** ** Loading the global file *)

(** X20. No file is loaded, and the state is left as it is, when the
    environment variable is unset and no built-in path is defined, and
    also when the variable is set to the empty string: an empty variable
    switches the built-in path off. *)
Theorem no_config_file_named env s :
  (getenv env "WATCHMAN_CONFIG_FILE" = None →
   WATCHMAN_CONFIG_FILE env = None →
   cfg_load_global_config_file env s = Ret tt s)
  ∧ (getenv env "WATCHMAN_CONFIG_FILE" = Some "" →
     cfg_load_global_config_file env s = Ret tt s).
Proof.
  unfold cfg_load_global_config_file. split.
  - by intros -> ->.
  - intros ->. by destruct (WATCHMAN_CONFIG_FILE env).
Qed.

Lemma no_config_file_named_witness :
  cfg_load_global_config_file
    (one_file_env (Some "") (Some "/etc/watchman.json")) one_key_config
  = Ret tt one_key_config.
Proof.
  apply (proj2 (no_config_file_named
                  (one_file_env (Some "") (Some "/etc/watchman.json"))
                  one_key_config)).
  evaluate.
Defined.

Lemma cfg_load_global_config_file_path env path s :
  getenv env "WATCHMAN_CONFIG_FILE" = Some path
  ∨ (getenv env "WATCHMAN_CONFIG_FILE" = None
     ∧ WATCHMAN_CONFIG_FILE env = Some path) →
  cfg_load_global_config_file env s =
  match path with
  | EmptyString => Ret tt s
  | _ =>
      match access_R_OK env path with
      | ACCESS_ENOENT => Ret tt s
      | _ =>
          match fst (fst (json_load_file_on env path (heap s))) with
          | None =>
              Ret tt (CfgState (snd (json_load_file_on env path (heap s)))
                        (global_cfg s) (arg_cfg s))
          | Some config =>
              Ret tt (CfgState (snd (json_load_file_on env path (heap s)))
                        (Some config) (arg_cfg s))
          end
      end
  end.
Proof.
  intros Hpath. unfold cfg_load_global_config_file.
  assert (match WATCHMAN_CONFIG_FILE env with
          | Some default =>
              if negb (bool_decide
                         (is_Some (getenv env "WATCHMAN_CONFIG_FILE")))
              then Some default
              else getenv env "WATCHMAN_CONFIG_FILE"
          | None => getenv env "WATCHMAN_CONFIG_FILE"
          end = Some path) as ->.
  { destruct Hpath as [-> | [-> ->]]; [|done].
    by destruct (WATCHMAN_CONFIG_FILE env). }
  destruct path as [|c path]; [done|].
  assert (Hload :
    (let* loaded := json_load_file env (String c path) in
     let config := fst loaded in
     let err_text := snd loaded in
     if negb (bool_decide (is_Some config)) then
       run w_log W_LOG_ERR
             ("failed to parse json from " +:+ String c path +:+ ": "
              +:+ err_text +:+ nl) in
       ret tt
     else put_global_cfg config) s
    = match fst (fst (json_load_file_on env (String c path) (heap s))) with
      | None =>
          Ret tt (CfgState
                    (snd (json_load_file_on env (String c path) (heap s)))
                    (global_cfg s) (arg_cfg s))
      | Some config =>
          Ret tt (CfgState
                    (snd (json_load_file_on env (String c path) (heap s)))
                    (Some config) (arg_cfg s))
      end).
  { unfold bind, json_load_file, bind, get_heap, put_heap, ret; simpl.
    by destruct (json_load_file_on env (String c path) (heap s))
      as [[[config|] err] h']. }
  by destruct (access_R_OK env (String c path)).
Qed.

(** X21. A file that cannot be loaded is not an error.  When the named
    file does not exist the state is left as it is and the parser is not
    called; when the parser returns NULL (the file being unreadable or not
    JSON) the call still returns, and both layer pointers are as
    before. *)
Theorem unloadable_file_keeps_the_layers env path s :
  getenv env "WATCHMAN_CONFIG_FILE" = Some path
  ∨ (getenv env "WATCHMAN_CONFIG_FILE" = None
     ∧ WATCHMAN_CONFIG_FILE env = Some path) →
  (access_R_OK env path = ACCESS_ENOENT →
   cfg_load_global_config_file env s = Ret tt s)
  ∧ (fst (fst (json_load_file_on env path (heap s))) = None →
     ∃ s',
       cfg_load_global_config_file env s = Ret tt s'
       ∧ global_cfg s' = global_cfg s ∧ arg_cfg s' = arg_cfg s).
Proof.
  intros Hpath. rewrite (cfg_load_global_config_file_path env path s Hpath).
  split.
  - intros ->. by destruct path.
  - intros ->. destruct path as [|c path]; [by exists s|].
    destruct (access_R_OK env (String c path)); eexists; split_and!;
      try reflexivity.
Qed.

Lemma unloadable_file_keeps_the_layers_witness :
  ∃ s',
    cfg_load_global_config_file broken_file_env one_key_config = Ret tt s'
    ∧ global_cfg s' = global_cfg one_key_config
    ∧ arg_cfg s' = arg_cfg one_key_config.
Proof.
  apply (proj2 (unloadable_file_keeps_the_layers broken_file_env
                  "/etc/broken.json" one_key_config (or_introl eq_refl)));
    evaluate.
Defined.

(** X22. A file that parses replaces the global layer as a whole: the
    global pointer becomes the parsed value, whatever it pointed to
    before, so a key is then found in the argument layer or else in the
    file, and no longer in what [cfg_set_global] had written earlier.  A
    failing [access] other than a missing file does not stop the load. *)
Theorem loaded_file_replaces_the_global_layer env path s config err h' :
  getenv env "WATCHMAN_CONFIG_FILE" = Some path
  ∨ (getenv env "WATCHMAN_CONFIG_FILE" = None
     ∧ WATCHMAN_CONFIG_FILE env = Some path) →
  path ≠ "" →
  access_R_OK env path ≠ ACCESS_ENOENT →
  json_load_file_on env path (heap s) = ((Some config, err), h') →
  ∃ s',
    cfg_load_global_config_file env s = Ret tt s'
    ∧ heap s' = h' ∧ global_cfg s' = Some config ∧ arg_cfg s' = arg_cfg s
    ∧ ∀ name,
        cfg_get_json None name s'
        = Ret match json_object_get h' (arg_cfg s) name with
              | Some in_args => Some in_args
              | None => json_object_get h' (Some config) name
              end s'.
Proof.
  intros Hpath Hne Haccess Hload.
  rewrite (cfg_load_global_config_file_path env path s Hpath), Hload. simpl.
  destruct path as [|c path]; [done|].
  exists (CfgState h' (Some config) (arg_cfg s)). split_and!; try done.
  - by destruct (access_R_OK env (String c path)).
  - intros name. rewrite cfg_get_json_run. unfold resolve, root_view_get.
    simpl. destruct (json_object_get h' (arg_cfg s) name); [done|].
    by destruct (json_object_get h' (Some config) name).
Qed.

Lemma loaded_file_replaces_the_global_layer_witness :
  ∃ s',
    cfg_load_global_config_file (one_file_env None (Some "/etc/watchman.json"))
      one_key_config = Ret tt s'
    ∧ heap s' = (heap one_key_config ++ [JObject {[ "k" := 4 ]}; JTrue])%list
    ∧ global_cfg s' = Some 3 ∧ arg_cfg s' = arg_cfg one_key_config
    ∧ ∀ name,
        cfg_get_json None name s'
        = Ret match json_object_get
                      (heap one_key_config ++ [JObject {[ "k" := 4 ]}; JTrue])
                      (arg_cfg one_key_config) name with
              | Some in_args => Some in_args
              | None =>
                  json_object_get
                    (heap one_key_config ++ [JObject {[ "k" := 4 ]}; JTrue])
                    (Some 3) name
              end s'.
Proof.
  apply (loaded_file_replaces_the_global_layer
           (one_file_env None (Some "/etc/watchman.json"))
           "/etc/watchman.json" one_key_config 3 "");
    [right; split; evaluate | done | done | evaluate].
Defined.

(** X23. A global pointer that is not an object (nothing checks what the
    file's top level is) makes the global layer inert: no key is found in
    it, and [cfg_set_global] returns without writing anything, whatever
    it is given. *)
Theorem non_object_layer_is_inert s o n :
  global_cfg s = Some o →
  heap s !! o = Some n →
  json_typeof n ≠ JSON_OBJECT →
  (∀ name val, cfg_set_global name val s = Ret tt s)
  ∧ (∀ name,
       cfg_get_json None name s
       = Ret (json_object_get (heap s) (arg_cfg s) name) s).
Proof.
  intros Hg Ho Hty. split.
  - intros name val. apply (cfg_set_global_refused name val s o Hg).
    right; right. unfold json_is_object; simpl. rewrite Ho. by destruct n.
  - intros name. rewrite cfg_get_json_run. unfold resolve, root_view_get.
    simpl first_hit. rewrite Hg.
    assert (json_object_get (heap s) (Some o) name = None) as ->.
    { unfold json_object_get; simpl. rewrite Ho. by destruct n. }
    by destruct (json_object_get (heap s) (arg_cfg s) name).
Qed.

Lemma non_object_layer_is_inert_witness :
  (∀ name val, cfg_set_global name val array_layer_config
               = Ret tt array_layer_config)
  ∧ (∀ name,
       cfg_get_json None name array_layer_config
       = Ret (json_object_get (heap array_layer_config)
                (arg_cfg array_layer_config) name) array_layer_config).
Proof.
  apply (non_object_layer_is_inert array_layer_config 0 (JArray [1]));
    [evaluate | evaluate | done].
Defined.
